(** * VCNL4040 proximity / ambient-light sensor driver (vcnl4040.py)

    A shallow embedding of the MicroPython driver: the register accessors
    ([UnaryStruct], [ROUnaryStruct], [RWBit], [RWBits]), the register map of
    class [VCNL4040], its derived properties, the interrupt cache and the
    constructor, followed by the properties of the accessors and of the
    device object.

    Conventions.
    - A Python [int] is a [Z]; [<<], [>>], [&], [|], [~] are [Z.shiftl],
      [Z.shiftr], [Z.land], [Z.lor], [Z.lnot]; [//] and [%] by a positive
      number are [Z.div] and [Z.modulo] (both floor).  Python raises on a
      negative shift count: the counts that are constructor arguments are
      naturals, and the one count a caller chooses at run time goes through
      [lshift].
    - A [bytearray] is a [list Z] of bytes (each in [0, 256)); indexing and
      item assignment raise [IndexError] out of range and accept Python's
      negative indices.
    - A Python [float] is an IEEE-754 binary64 [float] (primitive floats).
    - Code that can raise returns in the monad [M]: state in, state and
      either an exception or a value out.  The state carries the [i2c] bus
      object, the attributes of the sensor object and a log of every bus
      transfer and every [sleep]. *)

From Stdlib Require Import ZArith List Lia Bool String Ascii Floats.
From stdpp Require Import base option list gmap.

Local Open Scope Z_scope.

(** ** Exceptions *)

(** The exceptions of the driver.  [StructError] is what [struct.pack_into]
    and [struct.unpack_from] raise on a buffer that is too small
    ([struct.error] in CPython, [ValueError("buffer too small")] in
    MicroPython); it is kept apart from the driver's own [ValueError]. *)
Inductive exn : Type :=
  | AttributeError
  | IndexError
  | KeyError
  | ValueError
  | RuntimeError
  | StructError.

Definition exn_eqb (a b : exn) : bool :=
  match a, b with
  | AttributeError, AttributeError | IndexError, IndexError
  | KeyError, KeyError | ValueError, ValueError
  | RuntimeError, RuntimeError | StructError, StructError => true
  | _, _ => false
  end.

(** ** Bytes and bytearrays *)

Definition is_byte (x : Z) : Prop := 0 <= x < 256.

Definition is_byteb (x : Z) : bool := (0 <=? x) && (x <? 256).

(** [bytearray(n)]: [n] zero bytes. *)
Definition bytearray (n : nat) : list Z := repeat 0 n.

(** Python's index normalisation on a sequence of length [len]. *)
Definition py_index (len : nat) (i : Z) : option nat :=
  if (0 <=? i) && (i <? Z.of_nat len) then Some (Z.to_nat i)
  else if (- Z.of_nat len <=? i) && (i <? 0) then Some (Z.to_nat (Z.of_nat len + i))
  else None.

(** [buf[i]] *)
Definition bytearray_getitem (buf : list Z) (i : Z) : exn + Z :=
  match py_index (length buf) i with
  | Some k =>
      match buf !! k with
      | Some x => inr x
      | None => inl IndexError
      end
  | None => inl IndexError
  end.

(** [buf[i] = x] *)
Definition bytearray_setitem (buf : list Z) (i : Z) (x : Z) : exn + list Z :=
  match py_index (length buf) i with
  | Some k => if is_byteb x then inr (<[k:=x]> buf) else inl ValueError
  | None => inl IndexError
  end.

(** [range(start, stop, step)] for a non-zero [step]. *)
Definition range (start stop step : Z) : list Z :=
  let count :=
    if 0 <? step then (stop - start + step - 1) / step
    else (start - stop - step - 1) / (- step) in
  map (fun k => start + Z.of_nat k * step) (seq 0 (Z.to_nat count)).

(** [a << n]: a negative shift count raises [ValueError]. *)
Definition lshift (a n : Z) : exn + Z :=
  if n <? 0 then inl ValueError else inr (Z.shiftl a n).

(** [reversed(order)] *)
Definition reversed (order : list Z) : list Z := rev order.

(** ** The [struct] module, for the formats a register can have

    A format is a byte-order character ([<] or [>]) followed by one code of
    an unsigned integer: [B] (1 byte), [H] (2 bytes), [I] (4 bytes). *)

Definition code_size (c : ascii) : option nat :=
  if Ascii.eqb c "B" then Some 1%nat
  else if Ascii.eqb c "H" then Some 2%nat
  else if Ascii.eqb c "I" then Some 4%nat
  else None.

Definition parse_format (fmt : string) : option (bool * nat) :=
  match fmt with
  | String o (String c EmptyString) =>
      match code_size c with
      | Some n =>
          if Ascii.eqb o "<" then Some (true, n)
          else if Ascii.eqb o ">" then Some (false, n)
          else None
      | None => None
      end
  | _ => None
  end.

(** [struct.calcsize(fmt)] *)
Definition calcsize (fmt : string) : exn + nat :=
  match parse_format fmt with
  | Some (_, n) => inr n
  | None => inl StructError
  end.

(** The integer whose little-endian bytes are [bs]. *)
Fixpoint le_decode (bs : list Z) : Z :=
  match bs with
  | [] => 0
  | b :: rest => Z.lor b (Z.shiftl (le_decode rest) 8)
  end.

(** The [n] little-endian bytes of [v] (the low [8 * n] bits). *)
Fixpoint le_encode (n : nat) (v : Z) : list Z :=
  match n with
  | O => []
  | S n' => Z.land v 255 :: le_encode n' (Z.shiftr v 8)
  end.

(** [struct.unpack_from(fmt, buf, offset)[0]] *)
Definition unpack_from (fmt : string) (buf : list Z) (offset : nat) : exn + Z :=
  match parse_format fmt with
  | Some (little, n) =>
      if (offset + n <=? length buf)%nat then
        let field := take n (drop offset buf) in
        inr (le_decode (if little then field else rev field))
      else inl StructError
  | None => inl StructError
  end.

(** [struct.pack_into(fmt, buf, offset, value)]: the buffer must hold the
    whole field from [offset] on, or nothing is written and the call
    raises.  MicroPython stores the low bits of a [value] that is too
    large. *)
Definition pack_into (fmt : string) (buf : list Z) (offset : nat) (value : Z)
  : exn + list Z :=
  match parse_format fmt with
  | Some (little, n) =>
      if (offset + n <=? length buf)%nat then
        let field := le_encode n value in
        inr (take offset buf ++ (if little then field else rev field)
               ++ drop (offset + n) buf)
      else inl StructError
  | None => inl StructError
  end.

(** ** The bus and the state of the program *)

(** The [i2c] object handed to the driver: [readfrom_mem_into(addr, reg,
    buf)] fills a buffer of [n] bytes, [writeto_mem(addr, reg, buf)] sends
    the bytes of a buffer.  The transfers themselves are taken to succeed. *)
Class I2C (B : Type) : Type := {
  readfrom_mem : B -> Z -> Z -> nat -> B * list Z;
  writeto_mem : B -> Z -> Z -> list Z -> B;
  readfrom_mem_length :
    forall b addr reg n, length (snd (readfrom_mem b addr reg n)) = n;
  readfrom_mem_bytes :
    forall b addr reg n, Forall is_byte (snd (readfrom_mem b addr reg n))
}.

(** What the program did to the outside world, oldest first. *)
Inductive Event : Type :=
  | EvRead (addr reg : Z) (nbytes : nat)
  | EvWrite (addr reg : Z) (data : list Z)
  | EvSleep (seconds : float).

Definition is_write (e : Event) : bool :=
  match e with EvWrite _ _ _ => true | _ => false end.

Definition is_read (e : Event) : bool :=
  match e with EvRead _ _ _ => true | _ => false end.

Definition is_sleep (e : Event) : bool :=
  match e with EvSleep _ => true | _ => false end.

(** [self.i2c], [self.address], [self.cached_interrupt_state] and the log. *)
Record State (B : Type) : Type := mkState {
  i2c : B;
  address : Z;
  cached_interrupt_state : gmap Z bool;
  log : list Event
}.
Arguments mkState {B} _ _ _ _.
Arguments i2c {B} _.
Arguments address {B} _.
Arguments cached_interrupt_state {B} _.
Arguments log {B} _.

Definition M (B A : Type) : Type := State B -> State B * (exn + A).

Definition ret {B A : Type} (x : A) : M B A := fun s => (s, inr x).

Definition raise {B A : Type} (e : exn) : M B A := fun s => (s, inl e).

Definition bind {B A1 A2 : Type} (m : M B A1) (f : A1 -> M B A2) : M B A2 :=
  fun s =>
    match m s with
    | (s', inr x) => f x s'
    | (s', inl e) => (s', inl e)
    end.

Definition lift {B A : Type} (r : exn + A) : M B A := fun s => (s, r).

Declare Scope drv_scope.
Delimit Scope drv_scope with drv.
Notation "'let*' x := c 'in' k" := (bind c (fun x => k))
  (at level 10, x name, c at level 100, k at level 200) : drv_scope.
Local Open Scope drv_scope.

(** [for x in xs: body(x)] *)
Fixpoint for_each {B A : Type} (xs : list A) (body : A -> M B unit) : M B unit :=
  match xs with
  | [] => ret tt
  | x :: rest => let* _ := body x in for_each rest body
  end.

(** ** The driver, over any bus *)

Section Driver.
Context {B : Type} `{I2C B}.

(** [obj.i2c.readfrom_mem_into(obj.address, register, buf)] with a buffer
    of [n] bytes: the buffer comes back filled (its former content is
    overwritten whole, so it is not an input). *)
Definition readfrom_mem_into (register : Z) (n : nat) : M B (list Z) :=
  fun s =>
    let '(b', buf) := readfrom_mem (i2c s) (address s) register n in
    (mkState b' (address s) (cached_interrupt_state s)
       (log s ++ [EvRead (address s) register n]), inr buf).

(** [obj.i2c.writeto_mem(obj.address, register, buf)] *)
Definition i2c_writeto_mem (register : Z) (buf : list Z) : M B unit :=
  fun s =>
    (mkState (writeto_mem (i2c s) (address s) register buf) (address s)
       (cached_interrupt_state s)
       (log s ++ [EvWrite (address s) register buf]), inr tt).

(** [time.sleep(seconds)] *)
Definition sleep (seconds : float) : M B unit :=
  fun s =>
    (mkState (i2c s) (address s) (cached_interrupt_state s)
       (log s ++ [EvSleep seconds]), inr tt).

End Driver.

(** *** class UnaryStruct *)
Module UnaryStruct.

Record t : Type := mk { format : string; register : Z }.

(** [UnaryStruct.__init__(self, register_address, struct_format)] *)
Definition __init__ (register_address : Z) (struct_format : string) : t :=
  mk struct_format register_address.

Section Methods.
Context {B : Type} `{I2C B}.

Definition __get__ (self : t) : M B Z :=
  let* size := lift (calcsize (format self)) in
  let* buf := readfrom_mem_into (register self) size in
  lift (unpack_from (format self) buf 0).

Definition __set__ (self : t) (value : Z) : M B unit :=
  let* size := lift (calcsize (format self)) in
  let buf := bytearray size in
  let* buf := lift (pack_into (format self) buf 1 value) in
  i2c_writeto_mem (register self) buf.

End Methods.
End UnaryStruct.

(** *** class ROUnaryStruct(UnaryStruct): [__get__] is inherited. *)
Module ROUnaryStruct.

Record t : Type := mk { base : UnaryStruct.t }.

Definition __init__ (register_address : Z) (struct_format : string) : t :=
  mk (UnaryStruct.__init__ register_address struct_format).

Section Methods.
Context {B : Type} `{I2C B}.

Definition __get__ (self : t) : M B Z := UnaryStruct.__get__ (base self).

Definition __set__ (self : t) (value : Z) : M B unit := raise AttributeError.

End Methods.
End ROUnaryStruct.

(** *** class RWBit *)
Module RWBit.

Record t : Type := mk {
  bit_mask : Z;
  buffer : list Z;
  register : Z;
  byte : Z
}.

Definition __init__ (register_address : Z) (bit : Z) (register_width : nat)
    (lsb_first : bool) : t :=
  mk (Z.shiftl 1 (bit mod 8))
     (bytearray register_width)
     register_address
     (if lsb_first then bit / 8
      else Z.of_nat register_width - (bit / 8) - 1).

Section Methods.
Context {B : Type} `{I2C B}.

Definition __get__ (self : t) : M B bool :=
  let* buf := readfrom_mem_into (register self) (length (buffer self)) in
  let* x := lift (bytearray_getitem buf (byte self)) in
  ret (negb (Z.land x (bit_mask self) =? 0)).

Definition __set__ (self : t) (value : bool) : M B unit :=
  let* buf := readfrom_mem_into (register self) (length (buffer self)) in
  let* x := lift (bytearray_getitem buf (byte self)) in
  let* buf :=
    lift (bytearray_setitem buf (byte self)
            (if value then Z.lor x (bit_mask self)
             else Z.land x (Z.lnot (bit_mask self)))) in
  i2c_writeto_mem (register self) buf.

End Methods.
End RWBit.

(** *** class RWBits *)
Module RWBits.

Record t : Type := mk {
  bit_mask : Z;
  lowest_bit : nat;
  buffer : list Z;
  lsb_first : bool;
  register : Z
}.

(** [__init__] raises [ValueError("Cannot have more bits than register
    size")] or returns the accessor. *)
Definition __init__ (num_bits : nat) (register_address : Z) (lowest_bit : nat)
    (register_width : nat) (lsb_first : bool) : exn + t :=
  let bit_mask :=
    Z.shiftl (Z.shiftl 1 (Z.of_nat num_bits) - 1) (Z.of_nat lowest_bit) in
  if Z.shiftl 1 (Z.of_nat register_width * 8) <=? bit_mask then inl ValueError
  else inr (mk bit_mask lowest_bit (bytearray register_width)
              lsb_first register_address).

(** [for i in order: reg = (reg << 8) | buf[i + shift]] *)
Fixpoint assemble (buf : list Z) (shift : Z) (order : list Z) (reg : Z) : exn + Z :=
  match order with
  | [] => inr reg
  | i :: rest =>
      match bytearray_getitem buf (i + shift) with
      | inr x => assemble buf shift rest (Z.lor (Z.shiftl reg 8) x)
      | inl e => inl e
      end
  end.

(** [for i in order: buf[i] = reg & 0xFF; reg >>= 8] *)
Fixpoint disassemble (buf : list Z) (order : list Z) (reg : Z) : exn + list Z :=
  match order with
  | [] => inr buf
  | i :: rest =>
      match bytearray_setitem buf i (Z.land reg 255) with
      | inr buf' => disassemble buf' rest (Z.shiftr reg 8)
      | inl e => inl e
      end
  end.

Section Methods.
Context {B : Type} `{I2C B}.

Definition __get__ (self : t) : M B Z :=
  let* buf := readfrom_mem_into (register self) (length (buffer self)) in
  let order := range (Z.of_nat (length buf)) 0 (-1) in
  let order := if negb (lsb_first self) then reversed order else order in
  let* reg := lift (assemble buf (-1) order 0) in
  ret (Z.shiftr (Z.land reg (bit_mask self)) (Z.of_nat (lowest_bit self))).

Definition __set__ (self : t) (value : Z) : M B unit :=
  let value := Z.shiftl value (Z.of_nat (lowest_bit self)) in
  let* buf := readfrom_mem_into (register self) (length (buffer self)) in
  let order := range (Z.of_nat (length buf)) 0 (-1) in
  let order :=
    if negb (lsb_first self) then range 0 (Z.of_nat (length buf)) 1 else order in
  let* reg := lift (assemble buf 0 order 0) in
  let reg := Z.land reg (Z.lnot (bit_mask self)) in
  let reg := Z.lor reg value in
  let* buf := lift (disassemble buf (reversed order) reg) in
  i2c_writeto_mem (register self) buf.

End Methods.
End RWBits.

(** *** class VCNL4040 *)
Module VCNL4040.

(** Ambient light sensor integration times *)
Definition ALS_80MS : Z := 0x0.
Definition ALS_160MS : Z := 0x1.
Definition ALS_320MS : Z := 0x2.
Definition ALS_640MS : Z := 0x3.

(** Proximity sensor integration times *)
Definition PS_1T : Z := 0x0.
Definition PS_1_5T : Z := 0x1.
Definition PS_2T : Z := 0x2.
Definition PS_2_5T : Z := 0x3.
Definition PS_3T : Z := 0x4.
Definition PS_3_5T : Z := 0x5.
Definition PS_4T : Z := 0x6.
Definition PS_8T : Z := 0x7.

(** LED current settings *)
Definition LED_50MA : Z := 0x0.
Definition LED_75MA : Z := 0x1.
Definition LED_100MA : Z := 0x2.
Definition LED_120MA : Z := 0x3.
Definition LED_140MA : Z := 0x4.
Definition LED_160MA : Z := 0x5.
Definition LED_180MA : Z := 0x6.
Definition LED_200MA : Z := 0x7.

(** LED duty cycle settings *)
Definition LED_1_40 : Z := 0x0.
Definition LED_1_80 : Z := 0x1.
Definition LED_1_160 : Z := 0x2.
Definition LED_1_320 : Z := 0x3.

(** Proximity sensor interrupt enable/disable options *)
Definition PS_INT_DISABLE : Z := 0x0.
Definition PS_INT_CLOSE : Z := 0x1.
Definition PS_INT_AWAY : Z := 0x2.
Definition PS_INT_CLOSE_AWAY : Z := 0x3.

(** Offsets into interrupt status register for different types *)
Definition ALS_IF_L : Z := 0x0D.
Definition ALS_IF_H : Z := 0x0C.
Definition PS_IF_CLOSE : Z := 0x09.
Definition PS_IF_AWAY : Z := 0x08.

(** The [interrupts] list of [_update_interrupt_state]. *)
Definition interrupts : list Z := [PS_IF_AWAY; PS_IF_CLOSE; ALS_IF_H; ALS_IF_L].

(** A [RWBits] attribute of the class body.  Every constructor call of the
    class body returns (lemma [register_map_builds] below), so the second
    branch is never taken. *)
Definition built (r : exn + RWBits.t) : RWBits.t :=
  match r with
  | inr d => d
  | inl _ => RWBits.mk 0 0%nat [] true 0
  end.

(** The register map, in the order of the class body. *)
Definition _device_id : UnaryStruct.t := UnaryStruct.__init__ 0x0C "<H".
Definition proximity : ROUnaryStruct.t := ROUnaryStruct.__init__ 0x08 "<H".
Definition proximity_shutdown : RWBit.t := RWBit.__init__ 0x03 0 2 true.
Definition proximity_integration_time : RWBits.t :=
  built (RWBits.__init__ 3 0x03 1 2 true).
Definition proximity_interrupt : RWBits.t :=
  built (RWBits.__init__ 2 0x03 8 2 true).
Definition proximity_bits : RWBit.t := RWBit.__init__ 0x03 11 2 true.
Definition proximity_low_threshold : UnaryStruct.t := UnaryStruct.__init__ 0x06 "<H".
Definition proximity_high_threshold : UnaryStruct.t := UnaryStruct.__init__ 0x07 "<H".
Definition interrupt_state : ROUnaryStruct.t := ROUnaryStruct.__init__ 0x0B "<H".
Definition led_current : RWBits.t := built (RWBits.__init__ 3 0x04 8 2 true).
Definition led_duty_cycle : RWBits.t := built (RWBits.__init__ 2 0x03 6 2 true).
Definition light : ROUnaryStruct.t := ROUnaryStruct.__init__ 0x09 "<H".
Definition light_shutdown : RWBit.t := RWBit.__init__ 0x00 0 2 true.
Definition _light_integration_time : RWBits.t :=
  built (RWBits.__init__ 2 0x00 6 2 true).
Definition light_interrupt : RWBit.t := RWBit.__init__ 0x00 1 2 true.
Definition light_low_threshold : UnaryStruct.t := UnaryStruct.__init__ 0x02 "<H".
Definition light_high_threshold : UnaryStruct.t := UnaryStruct.__init__ 0x01 "<H".
Definition _raw_white : ROUnaryStruct.t := ROUnaryStruct.__init__ 0x0A "<H".
Definition white_shutdown : RWBit.t := RWBit.__init__ 0x04 15 2 true.

(** [float(n)] of a small non-negative [int]: the conversion of an [int]
    operand of a float operation, exact below [2^53] (the driver's values
    are sixteen-bit counts and delays in ms). *)
Definition float_of_int (n : Z) : float := PrimFloat.of_uint63 (Uint63.of_Z n).

(** [(8 << it) * 10]: the integration time of a setting, in ms. *)
Definition it_ms (it : Z) : exn + Z :=
  match lshift 8 it with
  | inr x => inr (x * 10)
  | inl e => inl e
  end.

(** [(old_it_ms + new_it_ms + 1) * 0.001]: the delay of the
    [light_integration_time] setter, in seconds. *)
Definition delay_seconds (old_it_ms new_it_ms : Z) : float :=
  PrimFloat.mul (float_of_int (old_it_ms + new_it_ms + 1))
    0x1.0624dd2f1a9fcp-10%float.

Section Methods.
Context {B : Type} `{I2C B}.

(** [self.cached_interrupt_state[key]] *)
Definition cache_getitem (key : Z) : M B bool :=
  fun s =>
    match cached_interrupt_state s !! key with
    | Some v => (s, inr v)
    | None => (s, inl KeyError)
    end.

(** [self.cached_interrupt_state[key] = value] *)
Definition cache_setitem (key : Z) (value : bool) : M B unit :=
  fun s =>
    (mkState (i2c s) (address s) (<[key:=value]> (cached_interrupt_state s))
       (log s), inr tt).

(** [self.cached_interrupt_state = d] *)
Definition cache_assign (d : gmap Z bool) : M B unit :=
  fun s => (mkState (i2c s) (address s) d (log s), inr tt).

Definition _update_interrupt_state : M B unit :=
  let* new_interrupt_state := ROUnaryStruct.__get__ interrupt_state in
  for_each interrupts (fun interrupt =>
    let new_state :=
      0 <? Z.land new_interrupt_state (Z.shiftl 1 interrupt) in
    if new_state then cache_setitem interrupt new_state else ret tt).

Definition _get_and_clear_cached_interrupt_state (interrupt_offset : Z) : M B bool :=
  let* _ := _update_interrupt_state in
  let* new_interrupt_state := cache_getitem interrupt_offset in
  let* _ := cache_setitem interrupt_offset false in
  ret new_interrupt_state.

(** The interrupt-flag properties. *)
Definition proximity_high_interrupt : M B bool :=
  _get_and_clear_cached_interrupt_state PS_IF_CLOSE.

Definition proximity_low_interrupt : M B bool :=
  _get_and_clear_cached_interrupt_state PS_IF_AWAY.

Definition light_high_interrupt : M B bool :=
  _get_and_clear_cached_interrupt_state ALS_IF_H.

Definition light_low_interrupt : M B bool :=
  _get_and_clear_cached_interrupt_state ALS_IF_L.

(** Property [light_integration_time]: getter and setter. *)
Definition light_integration_time : M B Z :=
  RWBits.__get__ _light_integration_time.

Definition set_light_integration_time (new_it : Z) : M B unit :=
  let* old_it := RWBits.__get__ _light_integration_time in
  let* old_it_ms := lift (it_ms old_it) in
  let* new_it_ms := lift (it_ms new_it) in
  let it_delay_seconds := delay_seconds old_it_ms new_it_ms in
  let* _ := RWBits.__set__ _light_integration_time new_it in
  sleep it_delay_seconds.

(** [0.1 / (1 << it)] *)
Definition lux_per_count (it : Z) : float :=
  PrimFloat.div 0x1.999999999999ap-4%float (float_of_int (Z.shiftl 1 it)).

(** Property [lux]: the left operand [self.light] is read first. *)
Definition lux : M B float :=
  let* raw := ROUnaryStruct.__get__ light in
  let* it := light_integration_time in
  ret (PrimFloat.mul (float_of_int raw) (lux_per_count it)).

(** Property [white] *)
Definition white : M B float :=
  let* raw := ROUnaryStruct.__get__ _raw_white in
  let* it := light_integration_time in
  ret (PrimFloat.mul (float_of_int raw) (lux_per_count it)).

(** The body of [__init__(self, i2c, address)], once [self.i2c] and
    [self.address] are set. *)
Definition __init__body : M B unit :=
  let* device_id := UnaryStruct.__get__ _device_id in
  if negb (device_id =? 0x186) then raise RuntimeError
  else
    let* _ := cache_assign
      (<[ALS_IF_L:=false]> (<[ALS_IF_H:=false]>
        (<[PS_IF_CLOSE:=false]> (<[PS_IF_AWAY:=false]> ∅)))) in
    let* _ := RWBit.__set__ proximity_shutdown false in
    let* _ := RWBit.__set__ light_shutdown false in
    RWBit.__set__ white_shutdown false.

(** [VCNL4040(i2c, address)]: the state the call leaves (the new object's
    attributes, the bus, the transfers made) and whether it raised.  Before
    the assignment in the body the object has no interrupt cache; nothing
    reads it until then. *)
Definition __init__ (bus : B) (address : Z) : State B * (exn + unit) :=
  __init__body (mkState bus address ∅ []).

End Methods.

(** The default device address of [__init__]. *)
Definition default_address : Z := 0x60.

End VCNL4040.

(** ** A simulated sensor on the bus

    The register file of one device: sixteen-bit command registers, read
    and written low byte first.  The device raises interrupts on its own:
    [int_events] lists the words that the next reads of the interrupt flag
    register INT_Flag (0x0B) will report, one per read, the register
    clearing itself on each read.  It is the test double on which the
    statements below are run. *)
Module Sim.

Record t : Type := mk { regs : gmap Z Z; int_events : list Z }.

Definition INT_FLAG : Z := 0x0B.

Definition read (d : t) (addr reg : Z) (n : nat) : t * list Z :=
  if reg =? INT_FLAG then
    match int_events d with
    | [] => (d, le_encode n 0)
    | w :: rest => (mk (regs d) rest, le_encode n w)
    end
  else (d, le_encode n (default 0 (regs d !! reg))).

Definition write (d : t) (addr reg : Z) (data : list Z) : t :=
  mk (<[reg:=le_decode data]> (regs d)) (int_events d).

(** A device with the given register contents and pending interrupts. *)
Definition device (contents : list (Z * Z)) (events : list Z) : t :=
  mk (list_to_map contents) events.

#[global] Instance sim_i2c : I2C t.
Proof.
  refine {| readfrom_mem := read; writeto_mem := write |}.
  - intros b addr reg n. unfold read.
    assert (Hlen : forall m v, length (le_encode m v) = m).
    { induction m as [|m IH]; intros v; simpl; [reflexivity | now rewrite IH]. }
    destruct (reg =? INT_FLAG); [destruct (int_events b) |]; apply Hlen.
  - intros b addr reg n. unfold read.
    assert (Hby : forall m v, Forall is_byte (le_encode m v)).
    { induction m as [|m IH]; intros v; simpl; constructor; [| apply IH].
      unfold is_byte. change 255 with (Z.ones 8). rewrite Z.land_ones by lia.
      apply Z.mod_pos_bound. lia. }
    destruct (reg =? INT_FLAG); [destruct (int_events b) |]; apply Hby.
Defined.

(** The state of a program that holds the device [d] at [addr]. *)
Definition state (d : t) (addr : Z) (cache : list (Z * bool)) : State t :=
  mkState d addr (list_to_map cache) [].

End Sim.

(** A program holding a sensor whose PS_CONF word (0x03) is 0x0800: 16-bit
    proximity output, proximity powered on. *)
Definition sim_conf : State Sim.t :=
  Sim.state (Sim.device [(0x03, 0x0800)] []) 0x60 [].

(** ** Vocabulary of the statements *)

(** The bits of a register as one integer, bit 0 the least significant:
    the buffer read low byte first ([lsb_first]) or high byte first. *)
Definition register_bits (lsb_first : bool) (buf : list Z) : Z :=
  le_decode (if lsb_first then buf else rev buf).

(** An unsigned integer fits in [n] bits when no bit from bit [n] on is
    set. *)
Definition fits_in_bits (m n : Z) : Prop :=
  forall i : Z, n <= i -> Z.testbit m i = false.

(** The bus writes among the events of a log. *)
Definition writes (l : list Event) : list Event := List.filter is_write l.

(** The sleeps among the events of a log. *)
Definition sleeps (l : list Event) : list Event := List.filter is_sleep l.

(** A computation that only reads: whatever it returns or raises, it adds
    no bus write and no sleep to the log and keeps the device address. *)
Definition reads_only {B A : Type} (m : M B A) : Prop :=
  forall s : State B,
    writes (log (fst (m s))) = writes (log s)
    /\ sleeps (log (fst (m s))) = sleeps (log s)
    /\ address (fst (m s)) = address s.

(** The interrupt cache holds an entry for each of the four flags. *)
Definition cache_ready (cache : gmap Z bool) : Prop :=
  forall flag : Z, flag ∈ VCNL4040.interrupts -> is_Some (cache !! flag).

(** A caller that reads the interrupt-flag properties of the sensor object,
    in any order and any number of times. *)
Inductive flag_property : Type :=
  | Proximity_high
  | Proximity_low
  | Light_high
  | Light_low.

Definition flag_offset (p : flag_property) : Z :=
  match p with
  | Proximity_high => VCNL4040.PS_IF_CLOSE
  | Proximity_low => VCNL4040.PS_IF_AWAY
  | Light_high => VCNL4040.ALS_IF_H
  | Light_low => VCNL4040.ALS_IF_L
  end.

Definition read_flag {B : Type} `{I2C B} (p : flag_property) : M B bool :=
  match p with
  | Proximity_high => VCNL4040.proximity_high_interrupt
  | Proximity_low => VCNL4040.proximity_low_interrupt
  | Light_high => VCNL4040.light_high_interrupt
  | Light_low => VCNL4040.light_low_interrupt
  end.

Fixpoint read_flags {B : Type} `{I2C B} (ps : list flag_property) : M B (list bool) :=
  match ps with
  | [] => ret []
  | p :: rest =>
      let* b := read_flag p in
      let* bs := read_flags rest in
      ret (b :: bs)
  end.

(** * Properties *)

(** ** Bytes and little-endian integers *)

Lemma is_byteb_spec x : is_byteb x = true <-> is_byte x.
Proof. unfold is_byteb, is_byte. rewrite andb_true_iff. lia. Qed.

Lemma is_byte_testbit_high x i : is_byte x -> 8 <= i -> Z.testbit x i = false.
Proof.
  intros [Hlo Hhi] Hi.
  destruct (Z.eq_dec x 0) as [-> | Hx]; [apply Z.bits_0 |].
  apply Z.bits_above_log2; [lia |].
  assert (Z.log2 x < 8); [| lia].
  apply Z.log2_lt_pow2; lia.
Qed.

Lemma is_byte_land x m : is_byte x -> is_byte (Z.land x m).
Proof.
  intros [Hlo Hhi]. unfold is_byte.
  assert (0 <= Z.land x m) by (apply Z.land_nonneg; lia).
  split; [assumption |].
  destruct (Z.eq_dec (Z.land x m) 0) as [-> | Hnz]; [lia |].
  apply Z.log2_lt_cancel. change (Z.log2 256) with 8.
  destruct (Z_lt_le_dec (Z.log2 (Z.land x m)) 8) as [Hlt | Hge]; [assumption |].
  exfalso.
  assert (Hbit : Z.testbit (Z.land x m) (Z.log2 (Z.land x m)) = true)
    by (apply Z.bit_log2; lia).
  rewrite Z.land_spec, (is_byte_testbit_high x) in Hbit by (unfold is_byte; lia).
  discriminate.
Qed.

Lemma is_byte_lor x y : is_byte x -> is_byte y -> is_byte (Z.lor x y).
Proof.
  intros Hx Hy. unfold is_byte.
  assert (0 <= Z.lor x y) by (apply Z.lor_nonneg; unfold is_byte in *; lia).
  split; [assumption |].
  destruct (Z.eq_dec (Z.lor x y) 0) as [-> | Hnz]; [lia |].
  apply Z.log2_lt_cancel. change (Z.log2 256) with 8.
  destruct (Z_lt_le_dec (Z.log2 (Z.lor x y)) 8) as [Hlt | Hge]; [assumption |].
  exfalso.
  assert (Hbit : Z.testbit (Z.lor x y) (Z.log2 (Z.lor x y)) = true)
    by (apply Z.bit_log2; lia).
  rewrite Z.lor_spec, (is_byte_testbit_high x), (is_byte_testbit_high y) in Hbit
    by assumption.
  discriminate.
Qed.

Lemma is_byte_bit j : 0 <= j < 8 -> is_byte (Z.shiftl 1 j).
Proof.
  intros Hj. unfold is_byte. rewrite Z.shiftl_1_l.
  split; [apply Z.pow_nonneg; lia |].
  change 256 with (2 ^ 8). apply Z.pow_lt_mono_r; lia.
Qed.

Lemma le_encode_length n v : length (le_encode n v) = n.
Proof. revert v. induction n as [|n IH]; intros v; simpl; [reflexivity | now rewrite IH]. Qed.

Lemma le_encode_bytes n v : Forall is_byte (le_encode n v).
Proof.
  revert v. induction n as [|n IH]; intros v; simpl; constructor; [| apply IH].
  rewrite Z.land_comm. apply is_byte_land. unfold is_byte. lia.
Qed.

Lemma le_decode_nonneg bs : Forall is_byte bs -> 0 <= le_decode bs.
Proof.
  induction 1 as [|b bs Hb _ IH]; simpl; [lia |].
  apply Z.lor_nonneg. split; [unfold is_byte in Hb; lia |].
  apply Z.shiftl_nonneg. assumption.
Qed.

(** Bit [i] of the integer is bit [i mod 8] of byte [i / 8]. *)
Lemma le_decode_testbit bs i :
  Forall is_byte bs -> 0 <= i ->
  Z.testbit (le_decode bs) i = Z.testbit (nth (Z.to_nat (i / 8)) bs 0) (i mod 8).
Proof.
  intros Hbs. revert i.
  induction Hbs as [|b bs Hb _ IH]; intros i Hi.
  - cbn [le_decode]. destruct (Z.to_nat (i / 8)); cbn [nth]; now rewrite !Z.bits_0.
  - cbn [le_decode]. rewrite Z.lor_spec, Z.shiftl_spec by assumption.
    destruct (Z_lt_le_dec i 8) as [Hlt | Hge].
    + rewrite (Z.testbit_neg_r _ (i - 8)) by lia. rewrite orb_false_r.
      rewrite Z.div_small, Z.mod_small by lia. reflexivity.
    + rewrite (is_byte_testbit_high b i) by assumption. rewrite orb_false_l.
      rewrite IH by lia.
      replace (i / 8) with ((i - 8) / 8 + 1)
        by (replace i with ((i - 8) + 1 * 8) at 2 by lia;
            rewrite Z.div_add by lia; reflexivity).
      replace (i mod 8) with ((i - 8) mod 8)
        by (replace i with ((i - 8) + 1 * 8) at 2 by lia;
            rewrite Z.mod_add by lia; reflexivity).
      assert (0 <= (i - 8) / 8) by (apply Z.div_pos; lia).
      rewrite Z2Nat.inj_add by lia. rewrite Nat.add_comm. reflexivity.
Qed.

Lemma le_decode_testbit_high bs i :
  Forall is_byte bs -> 8 * Z.of_nat (length bs) <= i ->
  Z.testbit (le_decode bs) i = false.
Proof.
  intros Hbs Hi. rewrite le_decode_testbit by (assumption || lia).
  rewrite nth_overflow; [apply Z.bits_0 |].
  assert (Z.of_nat (length bs) <= i / 8) by (apply Z.div_le_lower_bound; lia).
  lia.
Qed.

(** Byte lists of one length with the same integer are the same list. *)
Lemma le_decode_inj bs cs :
  Forall is_byte bs -> Forall is_byte cs -> length bs = length cs ->
  le_decode bs = le_decode cs -> bs = cs.
Proof.
  intros Hbs. revert cs.
  induction Hbs as [|b bs Hb Hbs IH]; intros cs Hcs Hlen Heq.
  - destruct cs; [reflexivity | discriminate].
  - destruct cs as [|c cs]; [discriminate |].
    inversion Hcs as [|? ? Hc Hcs']; subst.
    assert (Hbits : forall i, 0 <= i ->
              Z.testbit (le_decode (b :: bs)) i = Z.testbit (le_decode (c :: cs)) i)
      by (intros; now rewrite Heq).
    assert (Hbc : b = c).
    { apply Z.bits_inj'. intros i Hi.
      destruct (Z_lt_le_dec i 8) as [Hlt | Hge].
      - specialize (Hbits i Hi).
        rewrite !le_decode_testbit in Hbits by (assumption || constructor; assumption).
        rewrite Z.div_small, Z.mod_small in Hbits by lia. exact Hbits.
      - now rewrite !is_byte_testbit_high by assumption. }
    subst c. f_equal. apply IH; [assumption | simpl in Hlen; lia |].
    apply Z.bits_inj'. intros i Hi.
    specialize (Hbits (i + 8) ltac:(lia)). cbn [le_decode] in Hbits.
    rewrite !Z.lor_spec, !Z.shiftl_spec in Hbits by lia.
    rewrite (is_byte_testbit_high b) in Hbits by (assumption || lia).
    replace (i + 8 - 8) with i in Hbits by lia. exact Hbits.
Qed.

Lemma testbit_one_bit b j : 0 <= b -> Z.testbit (Z.shiftl 1 b) j = (b =? j).
Proof. intros Hb. rewrite Z.shiftl_1_l. now apply Z.pow2_bits_eqb. Qed.

Lemma nth_insert_Z (l : list Z) (k m : nat) (y : Z) :
  nth m (<[k:=y]> l) 0 =
    if (m =? k)%nat && (k <? length l)%nat then y else nth m l 0.
Proof.
  revert k m. induction l as [|a l IH]; intros k m.
  - destruct k, m; simpl; rewrite ?andb_false_r; reflexivity.
  - destruct k as [|k], m as [|m]; cbn [nth length]; try reflexivity.
    change (<[S k:=y]> (a :: l)) with (a :: <[k:=y]> l). cbn [nth].
    rewrite IH. reflexivity.
Qed.

Lemma nth_byte_order (lsb_first : bool) (l : list Z) (m : nat) :
  nth m (if lsb_first then l else rev l) 0 =
    if (m <? length l)%nat
    then nth (if lsb_first then m else (length l - S m)%nat) l 0
    else 0.
Proof.
  destruct (Nat.ltb_spec m (length l)) as [Hlt | Hge].
  - destruct lsb_first; [reflexivity | now apply rev_nth].
  - apply nth_overflow. destruct lsb_first; [| rewrite length_rev]; lia.
Qed.

Lemma register_bits_testbit (lsb_first : bool) (buf : list Z) (i : Z) :
  Forall is_byte buf -> 0 <= i ->
  Z.testbit (register_bits lsb_first buf) i =
    if (Z.to_nat (i / 8) <? length buf)%nat
    then Z.testbit
           (nth (if lsb_first then Z.to_nat (i / 8)
                 else (length buf - S (Z.to_nat (i / 8)))%nat) buf 0) (i mod 8)
    else false.
Proof.
  intros Hbuf Hi. unfold register_bits.
  rewrite le_decode_testbit; [| destruct lsb_first; [assumption | now apply Forall_rev] | assumption].
  rewrite nth_byte_order. destruct (_ <? _)%nat; [reflexivity | apply Z.bits_0].
Qed.

(** The byte that [RWBit] picks and the byte it stores there set or clear
    exactly bit [bit] of the register. *)
Lemma register_bits_insert (lsb_first : bool) (buf : list Z) (bit : Z) (value : bool) :
  Forall is_byte buf -> 0 <= bit < 8 * Z.of_nat (length buf) ->
  let k := Z.to_nat (if lsb_first then bit / 8
                     else Z.of_nat (length buf) - bit / 8 - 1) in
  let x := nth k buf 0 in
  let mask := Z.shiftl 1 (bit mod 8) in
  register_bits lsb_first
    (<[k:=if value then Z.lor x mask else Z.land x (Z.lnot mask)]> buf) =
  if value then Z.setbit (register_bits lsb_first buf) bit
  else Z.clearbit (register_bits lsb_first buf) bit.
Proof.
  intros Hbuf Hbit k x mask.
  assert (Hq : 0 <= bit / 8 < Z.of_nat (length buf))
    by (split; [apply Z.div_pos; lia | apply Z.div_lt_upper_bound; lia]).
  assert (Hr : 0 <= bit mod 8 < 8) by (apply Z.mod_pos_bound; lia).
  assert (Hk : (k < length buf)%nat) by (subst k; destruct lsb_first; lia).
  assert (Hx : is_byte x).
  { subst x. apply (proj1 (Forall_nth is_byte 0 buf) Hbuf). lia. }
  assert (Hnew : Forall is_byte
            (<[k:=if value then Z.lor x mask else Z.land x (Z.lnot mask)]> buf)).
  { apply Forall_insert; [assumption |].
    destruct value; [apply is_byte_lor; [assumption | now apply is_byte_bit]
                    | now apply is_byte_land]. }
  apply Z.bits_inj'. intros i Hi.
  assert (Hiq : 0 <= i / 8) by (apply Z.div_pos; lia).
  assert (Hir : 0 <= i mod 8 < 8) by (apply Z.mod_pos_bound; lia).
  pose proof (Z.div_mod i 8 ltac:(lia)) as Hdm_i.
  pose proof (Z.div_mod bit 8 ltac:(lia)) as Hdm_b.
  rewrite (register_bits_testbit _ _ i Hnew Hi), length_insert, nth_insert_Z.
  assert (Hrhs :
    Z.testbit (if value then Z.setbit (register_bits lsb_first buf) bit
               else Z.clearbit (register_bits lsb_first buf) bit) i =
    if value then (bit =? i) || Z.testbit (register_bits lsb_first buf) i
    else Z.testbit (register_bits lsb_first buf) i && negb (bit =? i)).
  { destruct value; [apply Z.setbit_eqb; lia | apply Z.clearbit_eqb]. }
  rewrite Hrhs, (register_bits_testbit _ _ i Hbuf Hi).
  destruct (Nat.ltb_spec (Z.to_nat (i / 8)) (length buf)) as [Hlt | Hge].
  - replace (k <? length buf)%nat with true by (symmetry; now apply Nat.ltb_lt).
    rewrite andb_true_r.
    set (idx := if lsb_first then Z.to_nat (i / 8)
                else (length buf - S (Z.to_nat (i / 8)))%nat).
    destruct (Nat.eqb_spec idx k) as [Hidx | Hidx].
    + assert (Hsame : i / 8 = bit / 8) by (subst idx k; destruct lsb_first; lia).
      rewrite Hidx. fold x.
      replace (bit =? i) with (bit mod 8 =? i mod 8)
        by (destruct (Z.eqb_spec (bit mod 8) (i mod 8)), (Z.eqb_spec bit i);
            try reflexivity; exfalso; [lia | subst; lia]).
      destruct value.
      * rewrite Z.lor_spec. subst mask. rewrite testbit_one_bit by lia.
        apply orb_comm.
      * rewrite Z.land_spec, Z.lnot_spec by lia. subst mask.
        rewrite testbit_one_bit by lia. reflexivity.
    + assert (Hdiff : i / 8 <> bit / 8)
        by (intros Heq; apply Hidx; subst idx k; rewrite Heq;
            destruct lsb_first; lia).
      replace (bit =? i) with false
        by (symmetry; apply Z.eqb_neq; intros ->; now apply Hdiff).
      destruct value; [reflexivity | cbn [negb]; now rewrite andb_true_r].
  - replace (bit =? i) with false
      by (symmetry; apply Z.eqb_neq; intros ->; lia).
    destruct value; reflexivity.
Qed.

(** ** Running the accessors *)

Section AccessorFacts.
Context {B : Type} `{I2C B}.

Lemma readfrom_mem_into_run (reg : Z) (n : nat) (s : State B) :
  readfrom_mem_into reg n s =
    (mkState (fst (readfrom_mem (i2c s) (address s) reg n)) (address s)
       (cached_interrupt_state s) (log s ++ [EvRead (address s) reg n]),
     inr (snd (readfrom_mem (i2c s) (address s) reg n))).
Proof. unfold readfrom_mem_into. now destruct (readfrom_mem _ _ _ _). Qed.

Lemma bytearray_length n : length (bytearray n) = n.
Proof. apply repeat_length. Qed.

Lemma bytearray_getitem_in (buf : list Z) (i : Z) :
  0 <= i < Z.of_nat (length buf) ->
  bytearray_getitem buf i = inr (nth (Z.to_nat i) buf 0).
Proof.
  intros Hi. unfold bytearray_getitem, py_index.
  replace ((0 <=? i) && (i <? Z.of_nat (length buf))) with true
    by (symmetry; apply andb_true_iff; split; [apply Z.leb_le | apply Z.ltb_lt]; lia).
  rewrite (nth_lookup buf (Z.to_nat i) 0).
  destruct (lookup_lt_is_Some_2 buf (Z.to_nat i) ltac:(lia)) as [x ->].
  reflexivity.
Qed.

Lemma bytearray_setitem_in (buf : list Z) (i x : Z) :
  0 <= i < Z.of_nat (length buf) -> is_byte x ->
  bytearray_setitem buf i x = inr (<[Z.to_nat i:=x]> buf).
Proof.
  intros Hi Hx. unfold bytearray_setitem, py_index.
  replace ((0 <=? i) && (i <? Z.of_nat (length buf))) with true
    by (symmetry; apply andb_true_iff; split; [apply Z.leb_le | apply Z.ltb_lt]; lia).
  now rewrite (proj2 (is_byteb_spec x) Hx).
Qed.

(** [buf[len(buf)]] raises. *)
Lemma bytearray_getitem_len (buf : list Z) :
  bytearray_getitem buf (Z.of_nat (length buf)) = inl IndexError.
Proof.
  unfold bytearray_getitem, py_index.
  replace (Z.of_nat (length buf) <? Z.of_nat (length buf)) with false
    by (symmetry; apply Z.ltb_ge; lia).
  replace (Z.of_nat (length buf) <? 0) with false
    by (symmetry; apply Z.ltb_ge; lia).
  now rewrite !andb_false_r.
Qed.

(** What one [RWBit.__set__] does: one read of the register, one write of
    the buffer read with one byte replaced. *)
Lemma RWBit_set_run (reg bit : Z) (width : nat) (lsb_first value : bool)
    (s : State B) :
  0 <= bit < 8 * Z.of_nat width ->
  let self := RWBit.__init__ reg bit width lsb_first in
  let r := readfrom_mem (i2c s) (address s) reg width in
  let k := Z.to_nat (RWBit.byte self) in
  let x := nth k (snd r) 0 in
  let data :=
    <[k:=if value then Z.lor x (RWBit.bit_mask self)
         else Z.land x (Z.lnot (RWBit.bit_mask self))]> (snd r) in
  RWBit.__set__ self value s =
    (mkState (writeto_mem (fst r) (address s) reg data) (address s)
       (cached_interrupt_state s)
       (log s ++ [EvRead (address s) reg width; EvWrite (address s) reg data]),
     inr tt).
Proof.
  intros Hbit self r k x data.
  assert (Hq : 0 <= bit / 8 < Z.of_nat width)
    by (split; [apply Z.div_pos; lia | apply Z.div_lt_upper_bound; lia]).
  assert (Hr : 0 <= bit mod 8 < 8) by (apply Z.mod_pos_bound; lia).
  assert (Hlen : length (snd r) = width) by apply readfrom_mem_length.
  assert (Hbytes : Forall is_byte (snd r)) by apply readfrom_mem_bytes.
  assert (Hbyte : 0 <= RWBit.byte self < Z.of_nat (length (snd r)))
    by (rewrite Hlen; subst self; cbn [RWBit.__init__ RWBit.byte];
        destruct lsb_first; lia).
  assert (Hx : is_byte x)
    by (subst x; apply (proj1 (Forall_nth is_byte 0 (snd r)) Hbytes); lia).
  unfold RWBit.__set__, bind, lift. subst self.
  cbn [RWBit.__init__ RWBit.buffer RWBit.register] in *.
  rewrite bytearray_length, readfrom_mem_into_run. fold r.
  rewrite (bytearray_getitem_in _ _ Hbyte). fold k x.
  rewrite bytearray_setitem_in; [ | exact Hbyte | ].
  - unfold i2c_writeto_mem. cbn [i2c address cached_interrupt_state log].
    fold k data. rewrite <- app_assoc. reflexivity.
  - cbn [RWBit.bit_mask].
    destruct value; [apply is_byte_lor; [assumption | now apply is_byte_bit]
                    | now apply is_byte_land].
Qed.

(** The bytes a [RWBit.__set__] writes are the register read with exactly
    bit [bit] set or cleared. *)
Lemma RWBit_set_data (reg bit : Z) (lsb_first value : bool) (buf : list Z) :
  Forall is_byte buf -> 0 <= bit < 8 * Z.of_nat (length buf) ->
  let self := RWBit.__init__ reg bit (length buf) lsb_first in
  let k := Z.to_nat (RWBit.byte self) in
  let x := nth k buf 0 in
  let data :=
    <[k:=if value then Z.lor x (RWBit.bit_mask self)
         else Z.land x (Z.lnot (RWBit.bit_mask self))]> buf in
  Forall is_byte data /\ length data = length buf /\
  register_bits lsb_first data =
    if value then Z.setbit (register_bits lsb_first buf) bit
    else Z.clearbit (register_bits lsb_first buf) bit.
Proof.
  intros Hbuf Hbit self k x data.
  assert (Hq : 0 <= bit / 8 < Z.of_nat (length buf))
    by (split; [apply Z.div_pos; lia | apply Z.div_lt_upper_bound; lia]).
  assert (Hr : 0 <= bit mod 8 < 8) by (apply Z.mod_pos_bound; lia).
  assert (Hk : (k < length buf)%nat)
    by (subst k self; cbn [RWBit.__init__ RWBit.byte]; destruct lsb_first; lia).
  assert (Hx : is_byte x)
    by (subst x; apply (proj1 (Forall_nth is_byte 0 buf) Hbuf); lia).
  split; [| split].
  - apply Forall_insert; [assumption |]. cbn [self RWBit.__init__ RWBit.bit_mask].
    destruct value; [apply is_byte_lor; [assumption | now apply is_byte_bit]
                    | now apply is_byte_land].
  - apply length_insert.
  - exact (register_bits_insert lsb_first buf bit value Hbuf Hbit).
Qed.

End AccessorFacts.

Section StructFacts.
Context {B : Type} `{I2C B}.

(** A sixteen-bit register read through [UnaryStruct]: one read of two
    bytes, decoded low byte first. *)
Lemma UnaryStruct_get_run (reg : Z) (s : State B) :
  UnaryStruct.__get__ (UnaryStruct.__init__ reg "<H") s =
    (mkState (fst (readfrom_mem (i2c s) (address s) reg 2)) (address s)
       (cached_interrupt_state s) (log s ++ [EvRead (address s) reg 2]),
     inr (le_decode (snd (readfrom_mem (i2c s) (address s) reg 2)))).
Proof.
  unfold UnaryStruct.__get__, UnaryStruct.__init__, bind, lift.
  cbn [UnaryStruct.format UnaryStruct.register calcsize parse_format].
  change (calcsize "<H") with (@inr exn nat 2%nat). cbv beta iota.
  rewrite readfrom_mem_into_run.
  pose proof (readfrom_mem_length (i2c s) (address s) reg 2) as Hlen.
  destruct (snd (readfrom_mem (i2c s) (address s) reg 2)) as [|x [|y [|z l]]];
    try discriminate Hlen.
  reflexivity.
Qed.

(** Writing through [UnaryStruct]: [pack_into] at offset 1 does not fit the
    buffer of [calcsize] bytes, so the call raises before any transfer. *)
Lemma UnaryStruct_set_run (reg value : Z) (s : State B) :
  UnaryStruct.__set__ (UnaryStruct.__init__ reg "<H") value s = (s, inl StructError).
Proof. reflexivity. Qed.

Lemma ROUnaryStruct_set_run (self : ROUnaryStruct.t) (value : Z) (s : State B) :
  ROUnaryStruct.__set__ self value s = (s, inl AttributeError).
Proof. reflexivity. Qed.

End StructFacts.

(** ** The single-bit accessor *)

Lemma clearbit_setbit (a n : Z) :
  0 <= n -> Z.clearbit (Z.setbit a n) n = Z.clearbit a n.
Proof.
  intros Hn. apply Z.bits_inj'. intros i Hi.
  rewrite !Z.clearbit_eqb, Z.setbit_eqb by assumption.
  destruct (n =? i); [now rewrite !andb_false_r | reflexivity].
Qed.

Lemma clearbit_clear (a n : Z) :
  0 <= n -> Z.testbit a n = false -> Z.clearbit a n = a.
Proof.
  intros Hn Hbit. apply Z.bits_inj'. intros i Hi.
  rewrite Z.clearbit_eqb.
  destruct (Z.eqb_spec n i) as [-> | _]; [now rewrite Hbit | apply andb_true_r].
Qed.

Lemma register_bits_inj (lsb_first : bool) (bs cs : list Z) :
  Forall is_byte bs -> Forall is_byte cs -> length bs = length cs ->
  register_bits lsb_first bs = register_bits lsb_first cs -> bs = cs.
Proof.
  intros Hbs Hcs Hlen Heq. unfold register_bits in Heq. destruct lsb_first.
  - now apply le_decode_inj.
  - apply le_decode_inj in Heq;
      [| now apply Forall_rev | now apply Forall_rev | now rewrite !length_rev].
    rewrite <- (rev_involutive bs), <- (rev_involutive cs). now f_equal.
Qed.

Section SingleBit.
Context {B : Type} `{I2C B}.

(** C9 (as amended).  For every single-bit accessor whose bit lies in the
    register and every register content, [write] is one read followed by
    one write of the bytes read with only the targeted bit set or cleared:
    seen as one integer, the bytes written are the bytes read with bit
    [bit] set ([Z.setbit]) or cleared ([Z.clearbit]).  Hence, when the
    register reads back as written, writing [true] then [false] writes
    back the original pattern with the targeted bit clear: every other bit
    is as it was, and the pattern is the original one exactly when the
    targeted bit was clear at the start. *)
Theorem C9_RWBit_write_changes_one_bit
    (reg bit : Z) (width : nat) (lsb_first : bool) (s : State B) :
  0 <= bit < 8 * Z.of_nat width ->
  let self := RWBit.__init__ reg bit width lsb_first in
  let r := readfrom_mem (i2c s) (address s) reg width in
  let old := register_bits lsb_first (snd r) in
  (forall value : bool, exists data,
      RWBit.__set__ self value s =
        (mkState (writeto_mem (fst r) (address s) reg data) (address s)
           (cached_interrupt_state s)
           (log s ++ [EvRead (address s) reg width; EvWrite (address s) reg data]),
         inr tt)
      /\ length data = width /\ Forall is_byte data
      /\ register_bits lsb_first data =
           (if value then Z.setbit old bit else Z.clearbit old bit)
      /\ (forall i, i <> bit ->
            Z.testbit (register_bits lsb_first data) i = Z.testbit old i))
  /\ (let s1 := fst (RWBit.__set__ self true s) in
      let r1 := readfrom_mem (i2c s1) (address s1) reg width in
      register_bits lsb_first (snd r1) = Z.setbit old bit ->
      exists data2,
        RWBit.__set__ self false s1 =
          (mkState (writeto_mem (fst r1) (address s) reg data2) (address s)
             (cached_interrupt_state s)
             (log s1 ++ [EvRead (address s) reg width; EvWrite (address s) reg data2]),
           inr tt)
        /\ register_bits lsb_first data2 = Z.clearbit old bit
        /\ (forall i, i <> bit ->
              Z.testbit (register_bits lsb_first data2) i = Z.testbit old i)
        /\ Z.testbit (register_bits lsb_first data2) bit = false
        /\ (data2 = snd r <-> Z.testbit old bit = false)).
Proof.
  intros Hbit self r old.
  assert (Hlen : length (snd r) = width) by apply readfrom_mem_length.
  assert (Hbytes : Forall is_byte (snd r)) by apply readfrom_mem_bytes.
  assert (Hother : forall (v : bool) i, i <> bit ->
            Z.testbit (if v then Z.setbit old bit else Z.clearbit old bit) i
            = Z.testbit old i).
  { intros v i Hi. destruct v.
    - destruct (Z_lt_le_dec i 0); [now rewrite !Z.testbit_neg_r by lia |].
      rewrite Z.setbit_eqb by lia.
      destruct (Z.eqb_spec bit i); [congruence | reflexivity].
    - rewrite Z.clearbit_eqb.
      destruct (Z.eqb_spec bit i); [congruence | apply andb_true_r]. }
  split.
  - intros value.
    pose proof (RWBit_set_run reg bit width lsb_first value s Hbit) as Hrun.
    cbv zeta in Hrun. fold self r in Hrun.
    pose proof (RWBit_set_data reg bit lsb_first value (snd r) Hbytes
                  ltac:(rewrite Hlen; exact Hbit)) as Hdata.
    cbv zeta in Hdata. rewrite Hlen in Hdata. fold self in Hdata.
    destruct Hdata as (Hd1 & Hd2 & Hd3).
    eexists. split; [exact Hrun |].
    split; [exact Hd2 |]. split; [exact Hd1 |]. fold old in Hd3.
    split; [exact Hd3 |].
    intros i Hi. rewrite Hd3. now apply Hother.
  - intros s1 r1 Hheld.
    pose proof (RWBit_set_run reg bit width lsb_first true s Hbit) as Hrun1.
    cbv zeta in Hrun1. fold self r in Hrun1.
    assert (Haddr : address s1 = address s) by (subst s1; now rewrite Hrun1).
    assert (Hcache : cached_interrupt_state s1 = cached_interrupt_state s)
      by (subst s1; now rewrite Hrun1).
    assert (Hlen1 : length (snd r1) = width) by apply readfrom_mem_length.
    assert (Hbytes1 : Forall is_byte (snd r1)) by apply readfrom_mem_bytes.
    pose proof (RWBit_set_run reg bit width lsb_first false s1 Hbit) as Hrun2.
    cbv zeta in Hrun2. fold self r1 in Hrun2.
    pose proof (RWBit_set_data reg bit lsb_first false (snd r1) Hbytes1
                  ltac:(rewrite Hlen1; exact Hbit)) as Hdata.
    cbv zeta in Hdata. rewrite Hlen1 in Hdata. fold self in Hdata.
    destruct Hdata as (Hd1 & Hd2 & Hd3).
    rewrite Hheld, clearbit_setbit in Hd3 by lia.
    rewrite Haddr, Hcache in Hrun2.
    eexists. split; [exact Hrun2 |].
    split; [exact Hd3 |].
    split; [intros i Hi; rewrite Hd3; now apply (Hother false) |].
    split.
    + rewrite Hd3, Z.clearbit_eqb, Z.eqb_refl. apply andb_false_r.
    + split.
      * intros Heq. rewrite Heq in Hd3. fold old in Hd3.
        assert (E : Z.testbit old bit = Z.testbit (Z.clearbit old bit) bit)
          by (now rewrite <- Hd3).
        rewrite E, Z.clearbit_eqb, Z.eqb_refl. apply andb_false_r.
      * intros Hclear.
        apply (register_bits_inj lsb_first); [assumption | assumption | lia |].
        rewrite Hd3. fold old. apply clearbit_clear; [lia | assumption].
Qed.

End SingleBit.

(** ** Construction of the device object *)

Section Construction.
Context {B : Type} `{I2C B}.

(** C5.  [VCNL4040(i2c, address)] reads the device-ID register (0x0C) once.
    If it does not read 0x186 the call raises [RuntimeError] having made no
    other transfer: no register is written.  If it reads 0x186 the call
    returns, the four cached interrupt flags are [False], and the program
    has done, in this order, a read-modify-write of registers 0x03, 0x00
    and 0x04 that clears bit 0, bit 0 and bit 15 (the proximity,
    ambient-light and white-channel shutdown bits) and leaves the other
    bits as read. *)
Theorem C5_construction (bus : B) (addr : Z) :
  let r0 := readfrom_mem bus addr 0x0C 2 in
  let r1 := readfrom_mem (fst r0) addr 0x03 2 in
  let d1 := <[0%nat:=Z.land (nth 0 (snd r1) 0) (Z.lnot 1)]> (snd r1) in
  let r2 := readfrom_mem (writeto_mem (fst r1) addr 0x03 d1) addr 0x00 2 in
  let d2 := <[0%nat:=Z.land (nth 0 (snd r2) 0) (Z.lnot 1)]> (snd r2) in
  let r3 := readfrom_mem (writeto_mem (fst r2) addr 0x00 d2) addr 0x04 2 in
  let d3 := <[1%nat:=Z.land (nth 1 (snd r3) 0) (Z.lnot 128)]> (snd r3) in
  VCNL4040.__init__ bus addr =
    (if le_decode (snd r0) =? 0x186 then
       (mkState (writeto_mem (fst r3) addr 0x04 d3) addr
          (<[13:=false]> (<[12:=false]> (<[9:=false]> (<[8:=false]> ∅))))
          [EvRead addr 0x0C 2;
           EvRead addr 0x03 2; EvWrite addr 0x03 d1;
           EvRead addr 0x00 2; EvWrite addr 0x00 d2;
           EvRead addr 0x04 2; EvWrite addr 0x04 d3],
        inr tt)
     else
       (mkState (fst r0) addr ∅ [EvRead addr 0x0C 2], inl RuntimeError))
  /\ writes [EvRead addr 0x0C 2] = []
  /\ register_bits true d1 = Z.clearbit (register_bits true (snd r1)) 0
  /\ register_bits true d2 = Z.clearbit (register_bits true (snd r2)) 0
  /\ register_bits true d3 = Z.clearbit (register_bits true (snd r3)) 15.
Proof.
  intros r0 r1 d1 r2 d2 r3 d3.
  split; [| split; [reflexivity |]].
  - unfold VCNL4040.__init__, VCNL4040.__init__body, bind.
    unfold VCNL4040._device_id. rewrite UnaryStruct_get_run.
    cbn [i2c address cached_interrupt_state log app]. fold r0.
    destruct (le_decode (snd r0) =? 390); cbn [negb]; [| reflexivity].
    unfold VCNL4040.cache_assign.
    unfold VCNL4040.proximity_shutdown, VCNL4040.light_shutdown,
      VCNL4040.white_shutdown.
    rewrite (RWBit_set_run 3 0 2 true false) by lia.
    cbn [i2c address cached_interrupt_state log app]. fold r1.
    rewrite (RWBit_set_run 0 0 2 true false) by lia.
    cbn [i2c address cached_interrupt_state log app]. fold r1.
    rewrite (RWBit_set_run 4 15 2 true false) by lia.
    cbn [i2c address cached_interrupt_state log app].
    reflexivity.
  - pose proof (readfrom_mem_length (fst r0) addr 3 2) as L1.
    pose proof (readfrom_mem_bytes (fst r0) addr 3 2) as B1.
    pose proof (readfrom_mem_length (writeto_mem (fst r1) addr 3 d1) addr 0 2) as L2.
    pose proof (readfrom_mem_bytes (writeto_mem (fst r1) addr 3 d1) addr 0 2) as B2.
    pose proof (readfrom_mem_length (writeto_mem (fst r2) addr 0 d2) addr 4 2) as L3.
    pose proof (readfrom_mem_bytes (writeto_mem (fst r2) addr 0 d2) addr 4 2) as B3.
    fold r1 in L1, B1. fold r2 in L2, B2. fold r3 in L3, B3.
    split; [| split].
    + pose proof (register_bits_insert true (snd r1) 0 false B1
                    ltac:(rewrite L1; lia)) as E.
      exact E.
    + pose proof (register_bits_insert true (snd r2) 0 false B2
                    ltac:(rewrite L2; lia)) as E.
      exact E.
    + pose proof (register_bits_insert true (snd r3) 15 false B3
                    ltac:(rewrite L3; lia)) as E.
      exact E.
Qed.

End Construction.

(** ** The interrupt cache *)

(** The test [status & (1 << k) > 0] of the refresh is the test of bit [k]. *)
Lemma land_bit_positive (a k : Z) :
  0 <= k -> (0 <? Z.land a (Z.shiftl 1 k)) = Z.testbit a k.
Proof.
  intros Hk.
  assert (E : Z.land a (Z.shiftl 1 k) = if Z.testbit a k then 2 ^ k else 0).
  { apply Z.bits_inj'. intros i Hi.
    rewrite Z.land_spec, testbit_one_bit by assumption.
    destruct (Z.eqb_spec k i) as [-> | Hne].
    - destruct (Z.testbit a i); [| now rewrite Z.bits_0].
      now rewrite Z.pow2_bits_true.
    - rewrite andb_false_r.
      destruct (Z.testbit a k); [| now rewrite Z.bits_0].
      symmetry. now apply Z.pow2_bits_false. }
  rewrite E. destruct (Z.testbit a k); [| reflexivity].
  apply Z.ltb_lt. apply Z.pow_pos_nonneg; lia.
Qed.

Section InterruptCache.
Context {B : Type} `{I2C B}.

(** The body of the loop of [_update_interrupt_state], for one flag. *)
Lemma latch_run (status k : Z) (s : State B) :
  0 <= k ->
  (if 0 <? Z.land status (Z.shiftl 1 k)
   then VCNL4040.cache_setitem k (0 <? Z.land status (Z.shiftl 1 k))
   else ret tt) s =
  (mkState (i2c s) (address s)
     (if Z.testbit status k then <[k:=true]> (cached_interrupt_state s)
      else cached_interrupt_state s) (log s), inr tt).
Proof.
  intros Hk. rewrite land_bit_positive by assumption.
  destruct (Z.testbit status k); [reflexivity | now destruct s].
Qed.

(** One refresh: one read of the interrupt-status register; each of the
    four flags whose status bit is set becomes [True], and nothing else in
    the cache changes. *)
Lemma update_interrupt_state_run (s : State B) :
  let r := readfrom_mem (i2c s) (address s) 0x0B 2 in
  let status := le_decode (snd r) in
  exists cache',
    VCNL4040._update_interrupt_state s =
      (mkState (fst r) (address s) cache'
         (log s ++ [EvRead (address s) 0x0B 2]), inr tt)
    /\ forall k : Z,
         cache' !! k =
           if bool_decide (k ∈ VCNL4040.interrupts) && Z.testbit status k
           then Some true else cached_interrupt_state s !! k.
Proof.
  intros r status.
  unfold VCNL4040._update_interrupt_state, bind.
  unfold VCNL4040.interrupt_state, ROUnaryStruct.__get__, ROUnaryStruct.__init__.
  cbn [ROUnaryStruct.base]. rewrite UnaryStruct_get_run. fold r status.
  unfold VCNL4040.interrupts, VCNL4040.PS_IF_AWAY, VCNL4040.PS_IF_CLOSE,
    VCNL4040.ALS_IF_H, VCNL4040.ALS_IF_L.
  cbn [for_each]. unfold bind.
  rewrite (latch_run status 8) by lia. cbn [i2c address cached_interrupt_state log].
  rewrite (latch_run status 9) by lia. cbn [i2c address cached_interrupt_state log].
  rewrite (latch_run status 12) by lia. cbn [i2c address cached_interrupt_state log].
  rewrite (latch_run status 13) by lia. cbn [i2c address cached_interrupt_state log].
  eexists. split; [reflexivity |].
  intros k.
  destruct (decide (k = 8)) as [-> | N8];
    [| destruct (decide (k = 9)) as [-> | N9];
       [| destruct (decide (k = 12)) as [-> | N12];
          [| destruct (decide (k = 13)) as [-> | N13]]]].
  5: { rewrite bool_decide_eq_false_2 by (rewrite !elem_of_cons, elem_of_nil; lia).
       cbn [andb].
       destruct (Z.testbit status 8), (Z.testbit status 9),
         (Z.testbit status 12), (Z.testbit status 13);
         now rewrite ?lookup_insert_ne by lia. }
  all: rewrite bool_decide_eq_true_2 by (rewrite !elem_of_cons; lia); cbn [andb].
  all: destruct (Z.testbit status 8), (Z.testbit status 9),
         (Z.testbit status 12), (Z.testbit status 13);
       rewrite ?lookup_insert_eq, ?(lookup_insert_ne _ 8), ?(lookup_insert_ne _ 9),
         ?(lookup_insert_ne _ 12), ?(lookup_insert_ne _ 13) by lia;
       rewrite ?lookup_insert_eq, ?(lookup_insert_ne _ 8), ?(lookup_insert_ne _ 9),
         ?(lookup_insert_ne _ 12), ?(lookup_insert_ne _ 13) by lia;
       rewrite ?lookup_insert_eq, ?(lookup_insert_ne _ 8), ?(lookup_insert_ne _ 9),
         ?(lookup_insert_ne _ 12), ?(lookup_insert_ne _ 13) by lia;
       rewrite ?lookup_insert_eq, ?(lookup_insert_ne _ 8), ?(lookup_insert_ne _ 9),
         ?(lookup_insert_ne _ 12), ?(lookup_insert_ne _ 13) by lia;
       reflexivity.
Qed.

(** One consume: a refresh, then the cached flag is returned and reset. *)
Lemma get_and_clear_run (flag : Z) (c : bool) (s : State B) :
  flag ∈ VCNL4040.interrupts ->
  cached_interrupt_state s !! flag = Some c ->
  let r := readfrom_mem (i2c s) (address s) 0x0B 2 in
  let status := le_decode (snd r) in
  exists cache',
    VCNL4040._get_and_clear_cached_interrupt_state flag s =
      (mkState (fst r) (address s) cache'
         (log s ++ [EvRead (address s) 0x0B 2]),
       inr (c || Z.testbit status flag))
    /\ cache' !! flag = Some false
    /\ forall k : Z, k <> flag ->
         cache' !! k =
           if bool_decide (k ∈ VCNL4040.interrupts) && Z.testbit status k
           then Some true else cached_interrupt_state s !! k.
Proof.
  intros Hflag Hc r status.
  destruct (update_interrupt_state_run s) as (cache1 & Hrun & Hcache1).
  fold r status in Hrun, Hcache1.
  unfold VCNL4040._get_and_clear_cached_interrupt_state, bind.
  rewrite Hrun. unfold VCNL4040.cache_getitem.
  cbn [i2c address cached_interrupt_state log].
  rewrite Hcache1, bool_decide_eq_true_2 by assumption. cbn [andb].
  rewrite Hc.
  exists (<[flag:=false]> cache1).
  split; [| split].
  - destruct (Z.testbit status flag), c; reflexivity.
  - apply lookup_insert_eq.
  - intros k Hk. rewrite lookup_insert_ne by congruence. apply Hcache1.
Qed.

End InterruptCache.

Section InterruptFlags.
Context {B : Type} `{I2C B}.

(** C3 (as amended).  The four interrupt flags PS_close, PS_away, ALS_high
    and ALS_low are single bits of the sixteen-bit interrupt-status
    register (0x0B) at bit offsets 9, 8, 12 and 13 respectively.  The
    refresh routine latches a flag exactly when the bit at its offset is
    set in the status word it read, and each flag-consuming property reads
    and resets the cache entry keyed by the same offset. *)
Theorem C3_interrupt_flag_offsets (s : State B) :
  let r := readfrom_mem (i2c s) (address s) 0x0B 2 in
  let status := le_decode (snd r) in
  (VCNL4040.PS_IF_CLOSE = 9 /\ VCNL4040.PS_IF_AWAY = 8
   /\ VCNL4040.ALS_IF_H = 12 /\ VCNL4040.ALS_IF_L = 13)
  /\ (exists cache',
        VCNL4040._update_interrupt_state s =
          (mkState (fst r) (address s) cache'
             (log s ++ [EvRead (address s) 0x0B 2]), inr tt)
        /\ cache' !! 9 = (if Z.testbit status 9 then Some true
                          else cached_interrupt_state s !! 9)
        /\ cache' !! 8 = (if Z.testbit status 8 then Some true
                          else cached_interrupt_state s !! 8)
        /\ cache' !! 12 = (if Z.testbit status 12 then Some true
                           else cached_interrupt_state s !! 12)
        /\ cache' !! 13 = (if Z.testbit status 13 then Some true
                           else cached_interrupt_state s !! 13))
  /\ (VCNL4040.proximity_high_interrupt (B:=B) =
        VCNL4040._get_and_clear_cached_interrupt_state 9
      /\ VCNL4040.proximity_low_interrupt (B:=B) =
           VCNL4040._get_and_clear_cached_interrupt_state 8
      /\ VCNL4040.light_high_interrupt (B:=B) =
           VCNL4040._get_and_clear_cached_interrupt_state 12
      /\ VCNL4040.light_low_interrupt (B:=B) =
           VCNL4040._get_and_clear_cached_interrupt_state 13)
  /\ (forall (offset : Z) (c : bool),
        offset ∈ [9; 8; 12; 13] ->
        cached_interrupt_state s !! offset = Some c ->
        snd (VCNL4040._get_and_clear_cached_interrupt_state offset s) =
          inr (c || Z.testbit status offset)).
Proof.
  intros r status.
  split; [repeat split |].
  split.
  - destruct (update_interrupt_state_run s) as (cache' & Hrun & Hcache).
    fold r status in Hrun, Hcache.
    exists cache'. split; [exact Hrun |].
    repeat split; rewrite Hcache;
      (rewrite bool_decide_eq_true_2;
       [reflexivity
       | unfold VCNL4040.interrupts, VCNL4040.PS_IF_AWAY, VCNL4040.PS_IF_CLOSE,
           VCNL4040.ALS_IF_H, VCNL4040.ALS_IF_L; rewrite !elem_of_cons; lia]).
  - split; [repeat split |].
    intros offset c Hoff Hc.
    assert (Hflag : offset ∈ VCNL4040.interrupts).
    { unfold VCNL4040.interrupts, VCNL4040.PS_IF_AWAY, VCNL4040.PS_IF_CLOSE,
        VCNL4040.ALS_IF_H, VCNL4040.ALS_IF_L.
      rewrite !elem_of_cons, elem_of_nil in Hoff |- *. lia. }
    destruct (get_and_clear_run offset c s Hflag Hc) as (cache' & Hrun & _).
    fold r status in Hrun. now rewrite Hrun.
Qed.

(** C6.  For every interrupt flag: a refresh is one read of the
    interrupt-status register, after which every flag whose status bit was
    set is [True] in the cache and every other entry is unchanged (none is
    cleared); consuming a flag refreshes, returns the cached boolean and
    resets it to [False].  So a flag that is clear and whose status bit is
    then reported is returned [True] by one consume and [False] by the next
    one if the status bit is not reported again; and after two refreshes
    that both saw the status bit, the next consume returns [True] and the
    one after it [False], again if no new status bit is reported. *)
Theorem C6_interrupt_cache (flag : Z) (c : bool) (s : State B) :
  flag ∈ VCNL4040.interrupts ->
  cached_interrupt_state s !! flag = Some c ->
  let status_at (st : State B) :=
    le_decode (snd (readfrom_mem (i2c st) (address st) 0x0B 2)) in
  let refresh := VCNL4040._update_interrupt_state (B:=B) in
  let consume := VCNL4040._get_and_clear_cached_interrupt_state (B:=B) flag in
  (exists cache',
      refresh s =
        (mkState (fst (readfrom_mem (i2c s) (address s) 0x0B 2)) (address s)
           cache' (log s ++ [EvRead (address s) 0x0B 2]), inr tt)
      /\ forall k : Z,
           cache' !! k =
             if bool_decide (k ∈ VCNL4040.interrupts) && Z.testbit (status_at s) k
             then Some true else cached_interrupt_state s !! k)
  /\ (exists cache',
        consume s =
          (mkState (fst (readfrom_mem (i2c s) (address s) 0x0B 2)) (address s)
             cache' (log s ++ [EvRead (address s) 0x0B 2]),
           inr (c || Z.testbit (status_at s) flag))
        /\ cache' !! flag = Some false
        /\ forall k : Z, k <> flag ->
             cache' !! k =
               if bool_decide (k ∈ VCNL4040.interrupts) && Z.testbit (status_at s) k
               then Some true else cached_interrupt_state s !! k)
  /\ (c = false -> Z.testbit (status_at s) flag = true ->
      snd (consume s) = inr true
      /\ (Z.testbit (status_at (fst (consume s))) flag = false ->
          snd (consume (fst (consume s))) = inr false))
  /\ (c = false -> Z.testbit (status_at s) flag = true ->
      let s1 := fst (refresh s) in
      Z.testbit (status_at s1) flag = true ->
      let s2 := fst (refresh s1) in
      snd (consume s2) = inr true
      /\ (Z.testbit (status_at (fst (consume s2))) flag = false ->
          snd (consume (fst (consume s2))) = inr false)).
Proof.
  intros Hflag Hc status_at refresh consume.
  assert (Hconsume : forall (st : State B) (b : bool),
            cached_interrupt_state st !! flag = Some b ->
            snd (consume st) = inr (b || Z.testbit (status_at st) flag)
            /\ cached_interrupt_state (fst (consume st)) !! flag = Some false).
  { intros st b Hb.
    destruct (get_and_clear_run flag b st Hflag Hb) as (c' & Hrun & Hc' & _).
    subst consume. cbv beta. rewrite Hrun. split; [reflexivity | exact Hc']. }
  assert (Hrefresh : forall (st : State B) (b : bool),
            cached_interrupt_state st !! flag = Some b ->
            cached_interrupt_state (fst (refresh st)) !! flag
            = Some (b || Z.testbit (status_at st) flag)).
  { intros st b Hb.
    destruct (update_interrupt_state_run st) as (c' & Hrun & Hc').
    subst refresh. cbv beta. rewrite Hrun. cbn [fst cached_interrupt_state].
    rewrite Hc', bool_decide_eq_true_2 by assumption. cbn [andb]. rewrite Hb.
    subst status_at. cbv beta.
    destruct (Z.testbit _ flag), b; reflexivity. }
  split; [exact (update_interrupt_state_run s) |].
  split; [exact (get_and_clear_run flag c s Hflag Hc) |].
  split.
  - intros -> Hset.
    destruct (Hconsume s false Hc) as (Hret & Hnext).
    split; [now rewrite Hret, Hset |].
    intros Hclear.
    destruct (Hconsume (fst (consume s)) false Hnext) as (Hret' & _).
    now rewrite Hret', Hclear.
  - intros -> Hset s1 Hset1 s2.
    pose proof (Hrefresh s false Hc) as H1. fold s1 in H1. rewrite Hset in H1.
    pose proof (Hrefresh s1 _ H1) as H2. fold s2 in H2.
    destruct (Hconsume s2 _ H2) as (Hret & Hnext).
    split; [now rewrite Hret |].
    intros Hclear.
    destruct (Hconsume (fst (consume s2)) false Hnext) as (Hret' & _).
    now rewrite Hret', Hclear.
Qed.

End InterruptFlags.

(** ** The multi-bit accessor *)

(** [range(n, 0, -1)] is [n, n-1, ..., 1]. *)
Lemma range_down (n : nat) :
  range (Z.of_nat n) 0 (-1) = map (fun k : nat => Z.of_nat n - Z.of_nat k) (seq 0 n).
Proof.
  unfold range. cbn [Z.ltb Z.compare].
  change (- (-1)) with 1.
  replace ((Z.of_nat n - 0 - -1 - 1) / 1) with (Z.of_nat n)
    by (rewrite Z.div_1_r; lia).
  rewrite Nat2Z.id. apply map_ext. intros k. lia.
Qed.

(** [range(0, n)] is [0, 1, ..., n-1]. *)
Lemma range_up (n : nat) :
  range 0 (Z.of_nat n) 1 = map Z.of_nat (seq 0 n).
Proof.
  unfold range. cbn [Z.ltb Z.compare].
  replace ((Z.of_nat n - 0 + 1 - 1) / 1) with (Z.of_nat n)
    by (rewrite Z.div_1_r; lia).
  rewrite Nat2Z.id. apply map_ext. intros k. lia.
Qed.

Lemma map_nth_seq (l : list Z) :
  map (fun j : nat => nth j l 0) (seq 0 (length l)) = l.
Proof.
  induction l as [|a l IH]; [reflexivity |].
  cbn [length seq map nth]. f_equal.
  rewrite <- seq_shift, map_map. exact IH.
Qed.

(** The bytes of a buffer in the order [len-1, ..., 0]. *)
Lemma map_nth_seq_rev (l : list Z) :
  map (fun k : nat => nth (length l - S k) l 0) (seq 0 (length l)) = rev l.
Proof.
  induction l as [|a l IH] using rev_ind; [reflexivity |].
  rewrite length_app, Nat.add_comm. cbn [length Nat.add seq map].
  rewrite rev_app_distr. cbn [rev app]. f_equal.
  - rewrite app_nth2 by lia. now replace (S (length l) - 1 - length l)%nat with 0%nat by lia.
  - rewrite <- seq_shift, map_map. rewrite <- IH.
    apply map_ext_in. intros k Hk. apply in_seq in Hk.
    rewrite app_nth1 by lia. f_equal.
Qed.

(** A loop of [assemble] over indices that all lie in the buffer shifts in
    the bytes it visits, in the order of the visit. *)
Lemma assemble_in (buf : list Z) (shift : Z) (order : list Z) (reg : Z) :
  Forall (fun i => 0 <= i + shift < Z.of_nat (length buf)) order ->
  RWBits.assemble buf shift order reg =
    inr (fold_left (fun a x => Z.lor (Z.shiftl a 8) x)
           (map (fun i => nth (Z.to_nat (i + shift)) buf 0) order) reg).
Proof.
  intros Horder. revert reg.
  induction Horder as [|i order Hi _ IH]; intros reg; [reflexivity |].
  cbn [RWBits.assemble map fold_left].
  rewrite bytearray_getitem_in by exact Hi. apply IH.
Qed.

(** Shifting in bytes from the most significant one on gives the integer
    of which they are the big-endian bytes. *)
Lemma fold_shift_in (l : list Z) :
  fold_left (fun a x => Z.lor (Z.shiftl a 8) x) l 0 = le_decode (rev l).
Proof.
  induction l as [|x l IH] using rev_ind; [reflexivity |].
  rewrite fold_left_app, rev_app_distr. cbn [fold_left rev app le_decode].
  rewrite IH. apply Z.lor_comm.
Qed.

(** The loop of [__get__] computes the register as one integer. *)
Lemma assemble_get (lsb_first : bool) (buf : list Z) :
  RWBits.assemble buf (-1)
    (if negb lsb_first then reversed (range (Z.of_nat (length buf)) 0 (-1))
     else range (Z.of_nat (length buf)) 0 (-1)) 0 =
  inr (register_bits lsb_first buf).
Proof.
  assert (Hdown : Forall (fun i => 0 <= i + -1 < Z.of_nat (length buf))
                    (range (Z.of_nat (length buf)) 0 (-1))).
  { rewrite range_down. apply Forall_forall. intros i Hi.
    apply list_elem_of_In, in_map_iff in Hi. destruct Hi as (k & <- & Hk). apply in_seq in Hk. lia. }
  assert (Hvisit : map (fun i => nth (Z.to_nat (i + -1)) buf 0)
                     (range (Z.of_nat (length buf)) 0 (-1)) = rev buf).
  { rewrite range_down, map_map. rewrite <- map_nth_seq_rev.
    apply map_ext_in. intros k Hk. apply in_seq in Hk. f_equal. lia. }
  unfold register_bits, reversed. destruct lsb_first; cbn [negb].
  - rewrite assemble_in by exact Hdown.
    now rewrite Hvisit, fold_shift_in, rev_involutive.
  - rewrite assemble_in by (now apply Forall_rev).
    now rewrite map_rev, Hvisit, rev_involutive, fold_shift_in.
Qed.

Section MultiBit.
Context {B : Type} `{I2C B}.

(** What [RWBits.__get__] does: one read of the register, whose bytes are
    put together in the byte order of the accessor, masked and shifted. *)
Lemma RWBits_get_run (self : RWBits.t) (s : State B) :
  let r := readfrom_mem (i2c s) (address s) (RWBits.register self)
             (length (RWBits.buffer self)) in
  RWBits.__get__ self s =
    (mkState (fst r) (address s) (cached_interrupt_state s)
       (log s ++ [EvRead (address s) (RWBits.register self)
                    (length (RWBits.buffer self))]),
     inr (Z.shiftr
            (Z.land (register_bits (RWBits.lsb_first self) (snd r))
               (RWBits.bit_mask self))
            (Z.of_nat (RWBits.lowest_bit self)))).
Proof.
  intros r. unfold RWBits.__get__, bind, lift, ret.
  rewrite readfrom_mem_into_run. fold r.
  now rewrite assemble_get.
Qed.

(** [__set__] on an accessor with [lsb_first] and a register of at least
    one byte: the first iteration of the loop indexes the buffer at its
    length, so the call raises [IndexError] after the read and before any
    write. *)
Lemma RWBits_set_lsb_first_run (self : RWBits.t) (value : Z) (s : State B) :
  RWBits.lsb_first self = true ->
  RWBits.buffer self <> [] ->
  RWBits.__set__ self value s =
    (mkState
       (fst (readfrom_mem (i2c s) (address s) (RWBits.register self)
               (length (RWBits.buffer self))))
       (address s) (cached_interrupt_state s)
       (log s ++ [EvRead (address s) (RWBits.register self)
                    (length (RWBits.buffer self))]),
     inl IndexError).
Proof.
  intros Hlsb Hbuf. unfold RWBits.__set__, bind, lift.
  rewrite readfrom_mem_into_run, Hlsb. cbn [negb].
  pose proof (readfrom_mem_length (i2c s) (address s) (RWBits.register self)
                (length (RWBits.buffer self))) as Hlen.
  set (buf := snd (readfrom_mem _ _ _ _)) in *.
  rewrite range_down.
  destruct (length buf) as [|n] eqn:En.
  - destruct (RWBits.buffer self); [congruence | discriminate].
  - cbn [seq map RWBits.assemble].
    replace (Z.of_nat (S n) - Z.of_nat 0 + 0) with (Z.of_nat (length buf)) by lia.
    now rewrite bytearray_getitem_len.
Qed.

End MultiBit.

(** A non-negative integer is below [2^n] exactly when it fits in [n] bits. *)
Lemma fits_in_bits_lt (m n : Z) :
  0 <= m -> 0 <= n -> (fits_in_bits m n <-> m < 2 ^ n).
Proof.
  intros Hm Hn. unfold fits_in_bits. split.
  - intros Hfit.
    destruct (Z.eq_dec m 0) as [-> | Hnz]; [apply Z.pow_pos_nonneg; lia |].
    apply Z.log2_lt_pow2; [lia |].
    destruct (Z_lt_le_dec (Z.log2 m) n) as [Hlt | Hge]; [assumption |].
    specialize (Hfit (Z.log2 m) Hge).
    rewrite Z.bit_log2 in Hfit by lia. discriminate.
  - intros Hlt i Hi.
    destruct (Z.eq_dec m 0) as [-> | Hnz]; [apply Z.bits_0 |].
    apply Z.bits_above_log2; [assumption |].
    assert (Z.log2 m < n) by (apply Z.log2_lt_pow2; lia). lia.
Qed.

(** The mask of a field: [num_bits] ones from bit [lowest_bit] on. *)
Lemma field_mask_value (num_bits lowest_bit : nat) :
  Z.shiftl (Z.shiftl 1 (Z.of_nat num_bits) - 1) (Z.of_nat lowest_bit) =
    2 ^ Z.of_nat (lowest_bit + num_bits) - 2 ^ Z.of_nat lowest_bit.
Proof.
  rewrite Z.shiftl_1_l, Z.shiftl_mul_pow2 by lia.
  rewrite Nat2Z.inj_add, Z.pow_add_r by lia. lia.
Qed.

Lemma field_mask_nonneg (num_bits lowest_bit : nat) :
  0 <= Z.shiftl (Z.shiftl 1 (Z.of_nat num_bits) - 1) (Z.of_nat lowest_bit).
Proof.
  apply Z.shiftl_nonneg. rewrite Z.shiftl_1_l.
  assert (0 < 2 ^ Z.of_nat num_bits) by (apply Z.pow_pos_nonneg; lia). lia.
Qed.

(** The mask is too wide for [n] bits exactly when the field is not empty
    and ends above bit [n]. *)
Lemma field_mask_too_wide (num_bits lowest_bit n : nat) :
  2 ^ Z.of_nat n <=
    Z.shiftl (Z.shiftl 1 (Z.of_nat num_bits) - 1) (Z.of_nat lowest_bit)
  <-> (0 < num_bits /\ n < lowest_bit + num_bits)%nat.
Proof.
  rewrite field_mask_value.
  assert (Hlow : 0 < 2 ^ Z.of_nat lowest_bit) by (apply Z.pow_pos_nonneg; lia).
  assert (Hn : 0 < 2 ^ Z.of_nat n) by (apply Z.pow_pos_nonneg; lia).
  split.
  - intros Hle. destruct num_bits as [|nb].
    + rewrite Nat.add_0_r in Hle. lia.
    + split; [lia |].
      destruct (Nat.lt_ge_cases n (lowest_bit + S nb)) as [Hlt | Hge]; [assumption |].
      assert (2 ^ Z.of_nat (lowest_bit + S nb) <= 2 ^ Z.of_nat n)
        by (apply Z.pow_le_mono_r; lia).
      lia.
  - intros [Hnb Hlt].
    assert (H1 : 2 ^ Z.of_nat n <= 2 ^ Z.of_nat (lowest_bit + num_bits - 1))
      by (apply Z.pow_le_mono_r; lia).
    assert (H2 : 2 ^ Z.of_nat lowest_bit <= 2 ^ Z.of_nat (lowest_bit + num_bits - 1))
      by (apply Z.pow_le_mono_r; lia).
    assert (H3 : 2 ^ Z.of_nat (lowest_bit + num_bits) =
                 2 * 2 ^ Z.of_nat (lowest_bit + num_bits - 1)).
    { replace (Z.of_nat (lowest_bit + num_bits))
        with (Z.succ (Z.of_nat (lowest_bit + num_bits - 1))) by lia.
      apply Z.pow_succ_r. lia. }
    lia.
Qed.

(** The loops of [__get__] and [__set__] raise nothing but [IndexError]. *)
Lemma assemble_raises (buf : list Z) (shift : Z) (order : list Z) (reg : Z) (e : exn) :
  RWBits.assemble buf shift order reg = inl e -> e = IndexError.
Proof.
  revert reg. induction order as [|i order IH]; intros reg; cbn [RWBits.assemble].
  - discriminate.
  - unfold bytearray_getitem.
    destruct (py_index (length buf) (i + shift)) as [k|];
      [destruct (buf !! k) |]; try (intros [= <-]; reflexivity).
    apply IH.
Qed.

Lemma disassemble_raises (buf : list Z) (order : list Z) (reg : Z) (e : exn) :
  RWBits.disassemble buf order reg = inl e -> e = IndexError.
Proof.
  revert buf reg. induction order as [|i order IH]; intros buf reg;
    cbn [RWBits.disassemble].
  - discriminate.
  - unfold bytearray_setitem.
    destruct (py_index (length buf) i) as [k|]; [| intros [= <-]; reflexivity].
    rewrite (proj2 (is_byteb_spec (Z.land reg 255)))
      by (rewrite Z.land_comm; apply is_byte_land; unfold is_byte; lia).
    apply IH.
Qed.

Section FieldConstruction.
Context {B : Type} `{I2C B}.

(** C10.  Constructing a multi-bit accessor raises [ValueError] exactly
    when the mask [((1 << num_bits) - 1) << lowest_bit] does not fit in
    [register_width * 8] bits, that is, when the field is not empty and
    ends above the register; otherwise it returns the accessor with that
    mask.  The check is the constructor's: reading always returns a value,
    and neither reading nor writing ever raises [ValueError]. *)
Theorem C10_RWBits_construction
    (num_bits lowest_bit register_width : nat) (register_address : Z)
    (lsb_first : bool) :
  let mask :=
    Z.shiftl (Z.shiftl 1 (Z.of_nat num_bits) - 1) (Z.of_nat lowest_bit) in
  let made :=
    RWBits.__init__ num_bits register_address lowest_bit register_width lsb_first in
  (made = inl ValueError <->
     ~ fits_in_bits mask (Z.of_nat register_width * 8))
  /\ (made = inl ValueError <->
        (0 < num_bits /\ register_width * 8 < lowest_bit + num_bits)%nat)
  /\ (fits_in_bits mask (Z.of_nat register_width * 8) ->
        made = inr (RWBits.mk mask lowest_bit (bytearray register_width)
                      lsb_first register_address))
  /\ (forall (self : RWBits.t) (value : Z) (s : State B),
        (exists v, snd (RWBits.__get__ self s) = inr v)
        /\ snd (RWBits.__set__ self value s) <> inl ValueError).
Proof.
  intros mask made.
  assert (Hmask : 0 <= mask) by apply field_mask_nonneg.
  assert (Hfits : fits_in_bits mask (Z.of_nat register_width * 8)
                  <-> mask < 2 ^ (Z.of_nat register_width * 8))
    by (apply fits_in_bits_lt; lia).
  assert (Hmade : made = if 2 ^ (Z.of_nat register_width * 8) <=? mask
                         then inl ValueError
                         else inr (RWBits.mk mask lowest_bit
                                     (bytearray register_width) lsb_first
                                     register_address)).
  { subst made mask. unfold RWBits.__init__. now rewrite (Z.shiftl_1_l (_ * 8)). }
  split; [| split; [| split]].
  - rewrite Hmade, Hfits.
    destruct (Z.leb_spec (2 ^ (Z.of_nat register_width * 8)) mask);
      split; intros; (lia || discriminate || reflexivity).
  - rewrite Hmade.
    pose proof (field_mask_too_wide num_bits lowest_bit (register_width * 8)) as Hw.
    rewrite Nat2Z.inj_mul in Hw. change (Z.of_nat 8) with 8 in Hw. fold mask in Hw.
    destruct (Z.leb_spec (2 ^ (Z.of_nat register_width * 8)) mask) as [Hle | Hlt].
    + split; [intros _; now apply Hw | reflexivity].
    + split; [discriminate | intros Hc; apply Hw in Hc; lia].
  - intros Hfit. rewrite Hmade. apply Hfits in Hfit.
    destruct (Z.leb_spec (2 ^ (Z.of_nat register_width * 8)) mask); [lia | reflexivity].
  - intros self value s. split.
    + eexists. now rewrite RWBits_get_run.
    + unfold RWBits.__set__, bind, lift. rewrite readfrom_mem_into_run.
      match goal with
      | |- context [RWBits.assemble ?b ?sh ?o ?r] =>
          destruct (RWBits.assemble b sh o r) as [e | reg] eqn:Easm
      end.
      * apply assemble_raises in Easm. subst e. cbn [snd]. discriminate.
      * match goal with
        | |- context [RWBits.disassemble ?b ?o ?r] =>
            destruct (RWBits.disassemble b o r) as [e | buf'] eqn:Edis
        end.
        -- apply disassemble_raises in Edis. subst e. cbn [snd]. discriminate.
        -- cbn [snd i2c_writeto_mem]. discriminate.
Qed.

End FieldConstruction.

Section FieldWrite.
Context {B : Type} `{I2C B}.

(** C1 (the code at the inputs where the claim fails).  A field accessor
    built with [lsb_first=True], the default, on a register of at least one
    byte cannot be written: [__set__] reads the register, raises
    [IndexError] in its first loop iteration and writes nothing to the bus,
    whatever the value.  No read after it can return the value. *)
Theorem C1_RWBits_set_lsb_first_raises
    (num_bits lowest_bit width : nat) (reg value : Z) (self : RWBits.t)
    (s : State B) :
  RWBits.__init__ num_bits reg lowest_bit (S width) true = inr self ->
  RWBits.__set__ self value s =
    (mkState (fst (readfrom_mem (i2c s) (address s) reg (S width)))
       (address s) (cached_interrupt_state s)
       (log s ++ [EvRead (address s) reg (S width)]),
     inl IndexError)
  /\ writes (log (fst (RWBits.__set__ self value s))) = writes (log s).
Proof.
  intros Hinit. unfold RWBits.__init__ in Hinit.
  destruct (_ <=? _) in Hinit; [discriminate |].
  injection Hinit as <-.
  assert (Hrun := RWBits_set_lsb_first_run
            (RWBits.mk
               (Z.shiftl (Z.shiftl 1 (Z.of_nat num_bits) - 1) (Z.of_nat lowest_bit))
               lowest_bit (bytearray (S width)) true reg)
            value s eq_refl ltac:(discriminate)).
  cbn [RWBits.register RWBits.buffer] in Hrun.
  rewrite bytearray_length in Hrun.
  split; [exact Hrun |].
  rewrite Hrun. cbn [fst log]. unfold writes.
  rewrite List.filter_app. cbn [List.filter is_write]. apply app_nil_r.
Qed.

(** C7 (the code at the inputs where the claim fails).  For every new
    setting in [0, 3] the [light_integration_time] setter reads the
    register 0x00 twice (once for the old setting, once inside the field
    write) and then raises [IndexError] from the field write: the new
    setting is not written and the program does not sleep. *)
Theorem C7_set_light_integration_time_raises (new_it : Z) (s : State B) :
  0 <= new_it <= 3 ->
  let r1 := readfrom_mem (i2c s) (address s) 0x00 2 in
  let r2 := readfrom_mem (fst r1) (address s) 0x00 2 in
  let s' := fst (VCNL4040.set_light_integration_time new_it s) in
  VCNL4040.set_light_integration_time new_it s =
    (mkState (fst r2) (address s) (cached_interrupt_state s)
       (log s ++ [EvRead (address s) 0x00 2; EvRead (address s) 0x00 2]),
     inl IndexError)
  /\ writes (log s') = writes (log s)
  /\ sleeps (log s') = sleeps (log s).
Proof.
  intros Hit r1 r2 s'.
  assert (Hrun : VCNL4040.set_light_integration_time new_it s =
    (mkState (fst r2) (address s) (cached_interrupt_state s)
       (log s ++ [EvRead (address s) 0x00 2; EvRead (address s) 0x00 2]),
     inl IndexError)).
  { unfold VCNL4040.set_light_integration_time, bind.
    rewrite RWBits_get_run.
    change (RWBits.register VCNL4040._light_integration_time) with 0.
    change (length (RWBits.buffer VCNL4040._light_integration_time)) with 2%nat.
    change (RWBits.lsb_first VCNL4040._light_integration_time) with true.
    change (RWBits.bit_mask VCNL4040._light_integration_time) with 192.
    change (Z.of_nat (RWBits.lowest_bit VCNL4040._light_integration_time)) with 6.
    fold r1.
    set (old_it := Z.shiftr (Z.land (register_bits true (snd r1)) 192) 6).
    assert (Hold : 0 <= old_it).
    { subst old_it. apply Z.shiftr_nonneg. apply Z.land_nonneg. right. lia. }
    unfold lift, VCNL4040.it_ms, lshift.
    replace (old_it <? 0) with false by (symmetry; apply Z.ltb_ge; lia).
    replace (new_it <? 0) with false by (symmetry; apply Z.ltb_ge; lia).
    rewrite RWBits_set_lsb_first_run by (reflexivity || discriminate).
    cbn [i2c address cached_interrupt_state log].
    change (RWBits.register VCNL4040._light_integration_time) with 0.
    change (length (RWBits.buffer VCNL4040._light_integration_time)) with 2%nat.
    fold r2. rewrite <- app_assoc. reflexivity. }
  split; [exact Hrun |].
  subst s'. rewrite Hrun. cbn [fst log]. unfold writes, sleeps.
  rewrite !List.filter_app. cbn [List.filter is_write is_sleep].
  now rewrite !app_nil_r.
Qed.

End FieldWrite.

(** The delay that the setter computes for a change from 80 ms (0) to 640 ms
    (3) is 0.721 s, as the float product [721 * 0.001]. *)
Lemma delay_seconds_80_to_640 :
  VCNL4040.it_ms 0 = inr 80 /\ VCNL4040.it_ms 3 = inr 640
  /\ VCNL4040.delay_seconds 80 640 = 0x1.7126e978d4fdfp-1%float.
Proof. repeat split; vm_compute; reflexivity. Qed.

Section DerivedLight.
Context {B : Type} `{I2C B}.

(** C8.  Reading [lux] reads the raw light count (0x09) and then the
    integration-time field (bits 6-7 of 0x00) from the bus, each time it is
    read, and returns the float product [raw * (0.1 / 2^setting)];
    reading [white] does the same with the raw white count (0x0A).  A raw
    count of 1000 gives 100.0 at setting 0 and 12.5 at setting 3. *)
Theorem C8_lux_white (s : State B) :
  let setting (bytes : list Z) := Z.shiftr (Z.land (le_decode bytes) 0xC0) 6 in
  let scaled (raw it : Z) :=
    PrimFloat.mul (VCNL4040.float_of_int raw)
      (PrimFloat.div 0x1.999999999999ap-4%float (VCNL4040.float_of_int (2 ^ it))) in
  let l1 := readfrom_mem (i2c s) (address s) 0x09 2 in
  let l2 := readfrom_mem (fst l1) (address s) 0x00 2 in
  let w1 := readfrom_mem (i2c s) (address s) 0x0A 2 in
  let w2 := readfrom_mem (fst w1) (address s) 0x00 2 in
  VCNL4040.lux s =
    (mkState (fst l2) (address s) (cached_interrupt_state s)
       (log s ++ [EvRead (address s) 0x09 2; EvRead (address s) 0x00 2]),
     inr (scaled (le_decode (snd l1)) (setting (snd l2))))
  /\ VCNL4040.white s =
       (mkState (fst w2) (address s) (cached_interrupt_state s)
          (log s ++ [EvRead (address s) 0x0A 2; EvRead (address s) 0x00 2]),
        inr (scaled (le_decode (snd w1)) (setting (snd w2))))
  /\ scaled 1000 0 = 100%float
  /\ scaled 1000 3 = 12.5%float.
Proof.
  intros setting scaled l1 l2 w1 w2.
  assert (Hderived : forall (d : ROUnaryStruct.t) (reg : Z),
            d = ROUnaryStruct.__init__ reg "<H" ->
            let x1 := readfrom_mem (i2c s) (address s) reg 2 in
            let x2 := readfrom_mem (fst x1) (address s) 0x00 2 in
            bind (ROUnaryStruct.__get__ d)
              (fun raw => bind VCNL4040.light_integration_time
                 (fun it => ret (PrimFloat.mul (VCNL4040.float_of_int raw)
                                   (VCNL4040.lux_per_count it)))) s =
            (mkState (fst x2) (address s) (cached_interrupt_state s)
               (log s ++ [EvRead (address s) reg 2; EvRead (address s) 0x00 2]),
             inr (scaled (le_decode (snd x1)) (setting (snd x2))))).
  { intros d reg -> x1 x2. unfold bind at 1.
    unfold ROUnaryStruct.__get__, ROUnaryStruct.__init__. cbn [ROUnaryStruct.base].
    rewrite UnaryStruct_get_run. fold x1.
    unfold bind, VCNL4040.light_integration_time. rewrite RWBits_get_run.
    cbn [i2c address cached_interrupt_state log].
    change (RWBits.register VCNL4040._light_integration_time) with 0.
    change (length (RWBits.buffer VCNL4040._light_integration_time)) with 2%nat.
    change (RWBits.lsb_first VCNL4040._light_integration_time) with true.
    change (RWBits.bit_mask VCNL4040._light_integration_time) with 192.
    change (Z.of_nat (RWBits.lowest_bit VCNL4040._light_integration_time)) with 6.
    fold x2. unfold ret, VCNL4040.lux_per_count, register_bits.
    rewrite Z.shiftl_1_l, <- app_assoc. reflexivity. }
  split; [exact (Hderived VCNL4040.light 0x09 eq_refl) |].
  split; [exact (Hderived VCNL4040._raw_white 0x0A eq_refl) |].
  split; vm_compute; reflexivity.
Qed.

End DerivedLight.

(** ** The multi-bit accessor with the high byte first *)

(** The write-back loop over [len-1, ..., 0] stores the low bytes of the
    integer from the end of the buffer backwards. *)
Lemma disassemble_prefix (pre suf : list Z) (v : Z) :
  RWBits.disassemble (pre ++ suf)
    (rev (map Z.of_nat (seq 0 (length pre)))) v =
  inr (rev (le_encode (length pre) v) ++ suf).
Proof.
  revert suf v. induction pre as [|x pre IH] using rev_ind; intros suf v.
  - reflexivity.
  - rewrite length_app, Nat.add_comm. cbn [length Nat.add].
    rewrite seq_S, map_app, rev_app_distr. cbn [Nat.add map rev app].
    cbn [RWBits.disassemble].
    rewrite bytearray_setitem_in;
      [| rewrite !length_app; cbn [length]; lia
       | rewrite Z.land_comm; apply is_byte_land; unfold is_byte; lia].
    rewrite Nat2Z.id, <- app_assoc.
    rewrite insert_app_r_alt by lia.
    rewrite Nat.sub_diag. cbn [app]. change (<[0%nat:=Z.land v 255]> (x :: suf))
      with (Z.land v 255 :: suf).
    rewrite IH. cbn [le_encode rev]. now rewrite <- app_assoc.
Qed.

Lemma disassemble_up (buf : list Z) (v : Z) :
  RWBits.disassemble buf (reversed (range 0 (Z.of_nat (length buf)) 1)) v =
  inr (rev (le_encode (length buf) v)).
Proof.
  unfold reversed. rewrite range_up.
  pose proof (disassemble_prefix buf [] v) as Hpre.
  now rewrite !app_nil_r in Hpre.
Qed.

Lemma nth_le_encode (n k : nat) (v : Z) :
  nth k (le_encode n v) 0 =
    if (k <? n)%nat then Z.land (Z.shiftr v (8 * Z.of_nat k)) 255 else 0.
Proof.
  revert k v. induction n as [|n IH]; intros k v.
  - now destruct k.
  - destruct k as [|k]; cbn [le_encode nth].
    + now rewrite Z.shiftr_0_r.
    + rewrite IH. change (S k <? S n)%nat with (k <? n)%nat.
      destruct (k <? n)%nat; [| reflexivity].
      rewrite Z.shiftr_shiftr by lia. do 2 f_equal. lia.
Qed.

(** Decoding the [n] low bytes of [v] keeps the low [8 * n] bits of [v]. *)
Lemma le_decode_encode_testbit (n : nat) (v i : Z) :
  0 <= i ->
  Z.testbit (le_decode (le_encode n v)) i =
    (i <? 8 * Z.of_nat n) && Z.testbit v i.
Proof.
  intros Hi.
  rewrite le_decode_testbit by (apply le_encode_bytes || assumption).
  rewrite nth_le_encode.
  assert (Hq : 0 <= i / 8) by (apply Z.div_pos; lia).
  assert (Hr : 0 <= i mod 8 < 8) by (apply Z.mod_pos_bound; lia).
  pose proof (Z.div_mod i 8 ltac:(lia)) as Hdm.
  destruct (Nat.ltb_spec (Z.to_nat (i / 8)) n) as [Hlt | Hge].
  - replace (i <? 8 * Z.of_nat n) with true by (symmetry; apply Z.ltb_lt; lia).
    change 255 with (Z.ones 8).
    rewrite Z.land_spec, Z.shiftr_spec, Z.ones_spec_low by lia.
    rewrite andb_true_r, Z2Nat.id by lia. cbn [andb]. f_equal. lia.
  - replace (i <? 8 * Z.of_nat n) with false by (symmetry; apply Z.ltb_ge; lia).
    apply Z.bits_0.
Qed.

(** The bits of the mask of a field. *)
Lemma field_mask_testbit (num_bits lowest_bit : nat) (j : Z) :
  0 <= j ->
  Z.testbit
    (Z.shiftl (Z.shiftl 1 (Z.of_nat num_bits) - 1) (Z.of_nat lowest_bit)) j =
  (Z.of_nat lowest_bit <=? j) && (j <? Z.of_nat lowest_bit + Z.of_nat num_bits).
Proof.
  intros Hj. rewrite Z.shiftl_spec by assumption.
  rewrite Z.shiftl_1_l, Z.sub_1_r, <- Z.ones_equiv.
  destruct (Z.leb_spec (Z.of_nat lowest_bit) j) as [Hle | Hlt].
  - rewrite Z.testbit_ones_nonneg by lia. cbn [andb].
    destruct (Z.ltb_spec (j - Z.of_nat lowest_bit) (Z.of_nat num_bits)),
      (Z.ltb_spec j (Z.of_nat lowest_bit + Z.of_nat num_bits));
      (reflexivity || lia).
  - apply Z.testbit_neg_r. lia.
Qed.

(** Clearing the field in [reg], or-ing [value] in at the field's place,
    masking and shifting back gives [value], when the field lies within
    [n] bytes and [value] within the field. *)
Lemma field_insert_extract (num_bits lowest_bit n : nat) (reg value : Z) :
  let mask :=
    Z.shiftl (Z.shiftl 1 (Z.of_nat num_bits) - 1) (Z.of_nat lowest_bit) in
  mask < 2 ^ (Z.of_nat n * 8) ->
  0 <= value < 2 ^ Z.of_nat num_bits ->
  Z.shiftr
    (Z.land
       (le_decode
          (le_encode n
             (Z.lor (Z.land reg (Z.lnot mask))
                (Z.shiftl value (Z.of_nat lowest_bit)))))
       mask)
    (Z.of_nat lowest_bit) = value.
Proof.
  intros mask Hfit Hvalue.
  assert (Hwide : ~ (0 < num_bits /\ n * 8 < lowest_bit + num_bits)%nat).
  { intros Hc. apply (field_mask_too_wide num_bits lowest_bit (n * 8)) in Hc.
    rewrite Nat2Z.inj_mul in Hc. change (Z.of_nat 8) with 8 in Hc.
    fold mask in Hc. lia. }
  apply Z.bits_inj'. intros i Hi.
  rewrite Z.shiftr_spec, Z.land_spec by assumption.
  rewrite le_decode_encode_testbit by lia.
  unfold mask at 2. rewrite field_mask_testbit by lia.
  rewrite Z.lor_spec, Z.land_spec, Z.lnot_spec, Z.shiftl_spec by lia.
  unfold mask. rewrite field_mask_testbit by lia.
  replace (i + Z.of_nat lowest_bit - Z.of_nat lowest_bit) with i by lia.
  replace (Z.of_nat lowest_bit <=? i + Z.of_nat lowest_bit) with true
    by (symmetry; apply Z.leb_le; lia).
  cbn [andb].
  destruct (Z.ltb_spec (i + Z.of_nat lowest_bit)
              (Z.of_nat lowest_bit + Z.of_nat num_bits)) as [Hin | Hout].
  - replace (i + Z.of_nat lowest_bit <? 8 * Z.of_nat n) with true
      by (symmetry; apply Z.ltb_lt; lia).
    cbn [negb andb]. now rewrite andb_false_r, andb_true_r.
  - rewrite andb_false_r. symmetry.
    destruct (Z.eq_dec value 0) as [-> | Hnz]; [apply Z.bits_0 |].
    apply Z.bits_above_log2; [lia |].
    assert (Z.log2 value < Z.of_nat num_bits) by (apply Z.log2_lt_pow2; lia).
    lia.
Qed.

Section FieldRoundTrip.
Context {B : Type} `{I2C B}.

(** X6.  With [lsb_first=False] the field accessor round-trips:
    [write(v)] is one read and one write of the register, and a [read()]
    of the register as written returns [v], for every [v] in
    [0, 2^num_bits - 1]. *)
Lemma RWBits_roundtrip_msb_first
    (num_bits lowest_bit width : nat) (reg value : Z) (self : RWBits.t)
    (s : State B) :
  RWBits.__init__ num_bits reg lowest_bit width false = inr self ->
  0 <= value < 2 ^ Z.of_nat num_bits ->
  let r := readfrom_mem (i2c s) (address s) reg width in
  exists data,
    RWBits.__set__ self value s =
      (mkState (writeto_mem (fst r) (address s) reg data) (address s)
         (cached_interrupt_state s)
         (log s ++ [EvRead (address s) reg width; EvWrite (address s) reg data]),
       inr tt)
    /\ length data = width
    /\ forall s1 : State B,
         snd (readfrom_mem (i2c s1) (address s1) reg width) = data ->
         snd (RWBits.__get__ self s1) = inr value.
Proof.
  intros Hinit Hvalue r.
  unfold RWBits.__init__ in Hinit.
  destruct (Z.leb_spec (Z.shiftl 1 (Z.of_nat width * 8))
              (Z.shiftl (Z.shiftl 1 (Z.of_nat num_bits) - 1) (Z.of_nat lowest_bit)))
    as [Hle | Hfit]; [discriminate |].
  injection Hinit as <-. rewrite (Z.shiftl_1_l (Z.of_nat width * 8)) in Hfit.
  assert (Hlen : length (snd r) = width) by apply readfrom_mem_length.
  eexists. split; [| split].
  - unfold RWBits.__set__, bind, lift.
    cbn [RWBits.register RWBits.buffer RWBits.lsb_first RWBits.bit_mask
           RWBits.lowest_bit negb].
    rewrite bytearray_length, readfrom_mem_into_run. fold r.
    rewrite assemble_in.
    2:{ rewrite range_up. apply Forall_forall. intros i Hi.
        apply list_elem_of_In, in_map_iff in Hi. destruct Hi as (k & <- & Hk).
        apply in_seq in Hk. lia. }
    rewrite disassemble_up.
    unfold i2c_writeto_mem. cbn [i2c address cached_interrupt_state log].
    rewrite <- app_assoc. reflexivity.
  - now rewrite length_rev, le_encode_length.
  - intros s1 Hread. rewrite RWBits_get_run.
    cbn [RWBits.register RWBits.buffer RWBits.lsb_first RWBits.bit_mask
           RWBits.lowest_bit snd].
    rewrite bytearray_length, Hread. unfold register_bits.
    rewrite rev_involutive, Hlen. f_equal.
    now apply field_insert_extract.
Qed.

End FieldRoundTrip.


(** ** Whole-register accessors *)

Section WholeRegister.
Context {B : Type} `{I2C B}.

(** C2 (the code at the inputs where the claim fails).  Writing any value
    to any of the four threshold registers raises from [struct.pack_into]:
    the value is packed at offset 1 of a scratch buffer of two bytes, where
    two bytes do not fit, so no bus write is made and the state of the
    device does not change.  At offset 0, the offset at which [__get__]
    unpacks, the value does fit. *)
Theorem C2_UnaryStruct_set_raises (value : Z) (s : State B) :
  UnaryStruct.__set__ VCNL4040.proximity_low_threshold value s = (s, inl StructError)
  /\ UnaryStruct.__set__ VCNL4040.proximity_high_threshold value s = (s, inl StructError)
  /\ UnaryStruct.__set__ VCNL4040.light_low_threshold value s = (s, inl StructError)
  /\ UnaryStruct.__set__ VCNL4040.light_high_threshold value s = (s, inl StructError)
  /\ pack_into "<H" (bytearray 2) 1 value = inl StructError
  /\ pack_into "<H" (bytearray 2) 0 value = inr (le_encode 2 value).
Proof. repeat split. Qed.

(** C4 (the code at the input where the claim fails).  Writing to
    [proximity], [light], [_raw_white] or [interrupt_state] raises
    [AttributeError] and leaves the bus alone.  The device ID is declared
    with the read-write [UnaryStruct]: writing to it is not rejected as a
    write to a read-only field, it runs [UnaryStruct.__set__], which raises
    the [struct] error of the misplaced [pack_into] offset. *)
Theorem C4_read_only_registers (value : Z) (s : State B) :
  ROUnaryStruct.__set__ VCNL4040.proximity value s = (s, inl AttributeError)
  /\ ROUnaryStruct.__set__ VCNL4040.light value s = (s, inl AttributeError)
  /\ ROUnaryStruct.__set__ VCNL4040._raw_white value s = (s, inl AttributeError)
  /\ ROUnaryStruct.__set__ VCNL4040.interrupt_state value s = (s, inl AttributeError)
  /\ UnaryStruct.__set__ VCNL4040._device_id value s = (s, inl StructError)
  /\ snd (UnaryStruct.__set__ VCNL4040._device_id value s) <> inl AttributeError.
Proof. repeat split. discriminate. Qed.

End WholeRegister.

(** The class body of [VCNL4040] builds: every [RWBits] constructor call
    returns its accessor. *)
Lemma register_map_builds :
  RWBits.__init__ 3 0x03 1 2 true = inr VCNL4040.proximity_integration_time
  /\ RWBits.__init__ 2 0x03 8 2 true = inr VCNL4040.proximity_interrupt
  /\ RWBits.__init__ 3 0x04 8 2 true = inr VCNL4040.led_current
  /\ RWBits.__init__ 2 0x03 6 2 true = inr VCNL4040.led_duty_cycle
  /\ RWBits.__init__ 2 0x00 6 2 true = inr VCNL4040._light_integration_time.
Proof. repeat split. Qed.

(** ** The statements on the simulated sensor *)

(** Writing the proximity shutdown bit (register 0x03, bit 0) on it. *)
Lemma C9_witness :
  0 <= 0 < 8 * Z.of_nat 2
  /\ (exists data,
        snd (RWBit.__set__ VCNL4040.proximity_shutdown true sim_conf) = inr tt
        /\ writes (log (fst (RWBit.__set__ VCNL4040.proximity_shutdown true sim_conf)))
           = [EvWrite 0x60 0x03 data]
        /\ register_bits true data = Z.setbit 0x0800 0)
  /\ (exists data2,
        let s1 := fst (RWBit.__set__ VCNL4040.proximity_shutdown true sim_conf) in
        snd (RWBit.__set__ VCNL4040.proximity_shutdown false s1) = inr tt
        /\ data2 = [0; 8]
        /\ writes (log (fst (RWBit.__set__ VCNL4040.proximity_shutdown false s1)))
           = [EvWrite 0x60 0x03 [1; 8]; EvWrite 0x60 0x03 data2]).
Proof.
  assert (Hbit : 0 <= 0 < 8 * Z.of_nat 2) by lia.
  split; [exact Hbit |].
  destruct (C9_RWBit_write_changes_one_bit 0x03 0 2 true sim_conf Hbit)
    as [Hwrite Hback].
  split.
  - destruct (Hwrite true) as (data & Hrun & _ & _ & Hbits & _).
    exists data. change (RWBit.__init__ 3 0 2 true) with VCNL4040.proximity_shutdown in Hrun.
    rewrite Hrun. split; [reflexivity |]. split; [reflexivity |]. exact Hbits.
  - destruct (Hback ltac:(vm_compute; reflexivity)) as (data2 & Hrun & Hbits & _ & _ & Heq).
    exists data2.
    change (RWBit.__init__ 3 0 2 true) with VCNL4040.proximity_shutdown in Hrun.
    assert (Hdata : data2 = [0; 8]) by (apply (proj2 Heq); vm_compute; reflexivity).
    cbv zeta. rewrite Hrun. split; [reflexivity |]. split; [exact Hdata |].
    rewrite Hdata. vm_compute. reflexivity.
Defined.

(** C9, the claim as stated, at a register whose targeted bit is set:
    PS_CONF reads 0x0801; writing [True] and then [False] to the shutdown
    bit leaves 0x0800 in the register, not the original pattern.  (And an
    accessor whose bit index lies outside its register, here bit 16 of a
    two-byte register, raises [IndexError] on a write and writes nothing.) *)
Lemma C9_counterexample :
  let s := Sim.state (Sim.device [(0x03, 0x0801)] []) 0x60 [] in
  let self := VCNL4040.proximity_shutdown in
  let run := bind (RWBit.__set__ self true) (fun _ => RWBit.__set__ self false) s in
  let outside := RWBit.__set__ (RWBit.__init__ 0x03 16 2 true) true s in
  snd (readfrom_mem (i2c s) 0x60 0x03 2) = [1; 8]
  /\ snd run = inr tt
  /\ writes (log (fst run)) = [EvWrite 0x60 0x03 [1; 8]; EvWrite 0x60 0x03 [0; 8]]
  /\ snd (readfrom_mem (i2c (fst run)) 0x60 0x03 2) = [0; 8]
  /\ snd (readfrom_mem (i2c (fst run)) 0x60 0x03 2)
     <> snd (readfrom_mem (i2c s) 0x60 0x03 2)
  /\ snd outside = inl IndexError
  /\ writes (log (fst outside)) = [].
Proof. cbv zeta. repeat split; vm_compute; (reflexivity || discriminate). Qed.

(** C3, the claim as stated, at a status word with only bit 8 set: the
    PS_close property ([proximity_high_interrupt]) returns [False] and the
    PS_away property ([proximity_low_interrupt]) returns [True]; with only
    bit 9 set it is the other way round. *)
Lemma C3_counterexample :
  let clear := [(13, false); (12, false); (9, false); (8, false)] in
  let bit8 := Sim.state (Sim.device [] [0x0100]) 0x60 clear in
  let bit9 := Sim.state (Sim.device [] [0x0200]) 0x60 clear in
  VCNL4040.PS_IF_CLOSE <> 8 /\ VCNL4040.PS_IF_AWAY <> 9
  /\ snd (VCNL4040.proximity_high_interrupt bit8) = inr false
  /\ snd (VCNL4040.proximity_low_interrupt bit8) = inr true
  /\ snd (VCNL4040.proximity_high_interrupt bit9) = inr true
  /\ snd (VCNL4040.proximity_low_interrupt bit9) = inr false.
Proof. cbv zeta. repeat split; vm_compute; (reflexivity || discriminate). Qed.

(** The PS_close flag on a sensor that reports it once (status word 0x0200),
    and on one that reports it on two reads in a row. *)
Lemma C6_witness :
  let clear := [(13, false); (12, false); (9, false); (8, false)] in
  let once := Sim.state (Sim.device [] [0x0200]) 0x60 clear in
  let twice := Sim.state (Sim.device [] [0x0200; 0x0200]) 0x60 clear in
  let consume :=
    VCNL4040._get_and_clear_cached_interrupt_state (B:=Sim.t) VCNL4040.PS_IF_CLOSE in
  let refresh := VCNL4040._update_interrupt_state (B:=Sim.t) in
  VCNL4040.PS_IF_CLOSE ∈ VCNL4040.interrupts
  /\ cached_interrupt_state once !! VCNL4040.PS_IF_CLOSE = Some false
  /\ (snd (consume once) = inr true
      /\ snd (consume (fst (consume once))) = inr false)
  /\ (snd (consume (fst (refresh (fst (refresh twice))))) = inr true
      /\ snd (consume (fst (consume (fst (refresh (fst (refresh twice)))))))
         = inr false).
Proof.
  intros clear once twice consume refresh.
  assert (Hflag : VCNL4040.PS_IF_CLOSE ∈ VCNL4040.interrupts)
    by (unfold VCNL4040.interrupts; rewrite !elem_of_cons; tauto).
  assert (Hc1 : cached_interrupt_state once !! VCNL4040.PS_IF_CLOSE = Some false)
    by (vm_compute; reflexivity).
  assert (Hc2 : cached_interrupt_state twice !! VCNL4040.PS_IF_CLOSE = Some false)
    by (vm_compute; reflexivity).
  split; [exact Hflag |]. split; [exact Hc1 |].
  split.
  - destruct (C6_interrupt_cache VCNL4040.PS_IF_CLOSE false once Hflag Hc1)
      as (_ & _ & Hone & _).
    destruct (Hone eq_refl ltac:(vm_compute; reflexivity)) as [Htrue Hfalse].
    split; [exact Htrue |].
    apply Hfalse. vm_compute. reflexivity.
  - destruct (C6_interrupt_cache VCNL4040.PS_IF_CLOSE false twice Hflag Hc2)
      as (_ & _ & _ & Htwo).
    destruct (Htwo eq_refl ltac:(vm_compute; reflexivity)
                ltac:(vm_compute; reflexivity)) as [Htrue Hfalse].
    split; [exact Htrue |].
    apply Hfalse. vm_compute. reflexivity.
Defined.

(** Writing 3 (640 ms) to the integration-time field of a sensor whose
    ALS_CONF word is 0x0001. *)
Lemma C1_witness :
  let s := Sim.state (Sim.device [(0x00, 0x0001)] []) 0x60 [] in
  RWBits.__init__ 2 0x00 6 2 true = inr VCNL4040._light_integration_time
  /\ snd (RWBits.__set__ VCNL4040._light_integration_time 3 s) = inl IndexError
  /\ log (fst (RWBits.__set__ VCNL4040._light_integration_time 3 s))
     = [EvRead 0x60 0x00 2]
  /\ writes (log (fst (RWBits.__set__ VCNL4040._light_integration_time 3 s))) = [].
Proof.
  intros s.
  assert (Hinit : RWBits.__init__ 2 0x00 6 2 true
                  = inr VCNL4040._light_integration_time) by reflexivity.
  split; [exact Hinit |].
  destruct (C1_RWBits_set_lsb_first_raises 2 6 1 0x00 3
              VCNL4040._light_integration_time s Hinit) as [Hrun Hwrites].
  rewrite Hwrites, Hrun. repeat split.
Defined.

(** Setting the integration time from 80 ms (0) to 640 ms (3). *)
Lemma C7_witness :
  let s := Sim.state (Sim.device [(0x00, 0x0000)] []) 0x60 [] in
  0 <= 3 <= 3
  /\ snd (VCNL4040.light_integration_time s) = inr 0
  /\ snd (VCNL4040.set_light_integration_time 3 s) = inl IndexError
  /\ log (fst (VCNL4040.set_light_integration_time 3 s))
     = [EvRead 0x60 0x00 2; EvRead 0x60 0x00 2]
  /\ sleeps (log (fst (VCNL4040.set_light_integration_time 3 s))) = []
  /\ snd (VCNL4040.light_integration_time
            (fst (VCNL4040.set_light_integration_time 3 s))) = inr 0.
Proof.
  intros s.
  assert (Hit : 0 <= 3 <= 3) by lia.
  split; [exact Hit |]. split; [vm_compute; reflexivity |].
  destruct (C7_set_light_integration_time_raises 3 s Hit) as (Hrun & _ & Hsleeps).
  cbv zeta in Hsleeps. rewrite Hsleeps, Hrun.
  repeat split.
Defined.

(** Construction on a sensor that answers 0x186 and on one that answers
    0x187. *)
Example construction_on_sensor :
  let found := Sim.device [(0x0C, 0x186); (0x03, 0x0001); (0x00, 0x0001);
                           (0x04, 0x8000)] [] in
  let other := Sim.device [(0x0C, 0x187); (0x03, 0x0001); (0x00, 0x0001);
                           (0x04, 0x8000)] [] in
  snd (VCNL4040.__init__ found VCNL4040.default_address) = inr tt
  /\ writes (log (fst (VCNL4040.__init__ found VCNL4040.default_address)))
     = [EvWrite 0x60 0x03 [0; 0]; EvWrite 0x60 0x00 [0; 0]; EvWrite 0x60 0x04 [0; 0]]
  /\ cached_interrupt_state
       (fst (VCNL4040.__init__ found VCNL4040.default_address))
     = list_to_map [(8, false); (9, false); (12, false); (13, false)]
  /\ snd (VCNL4040.__init__ other VCNL4040.default_address) = inl RuntimeError
  /\ log (fst (VCNL4040.__init__ other VCNL4040.default_address))
     = [EvRead 0x60 0x0C 2]
  /\ i2c (fst (VCNL4040.__init__ other VCNL4040.default_address)) = other.
Proof.
  cbv zeta. repeat split; vm_compute; reflexivity.
Qed.

(** [lux] and [white] on a sensor with raw counts 1000, at the settings 0
    and 3. *)
Example lux_on_sensor :
  let at80 := Sim.state (Sim.device [(0x09, 1000); (0x0A, 1000); (0x00, 0x0000)] [])
                0x60 [] in
  let at640 := Sim.state (Sim.device [(0x09, 1000); (0x0A, 1000); (0x00, 0x00C0)] [])
                 0x60 [] in
  snd (VCNL4040.lux at80) = inr 100%float
  /\ snd (VCNL4040.white at80) = inr 100%float
  /\ snd (VCNL4040.lux at640) = inr 12.5%float
  /\ snd (VCNL4040.white at640) = inr 12.5%float
  /\ log (fst (VCNL4040.lux at640)) = [EvRead 0x60 0x09 2; EvRead 0x60 0x00 2].
Proof. cbv zeta. repeat split; vm_compute; reflexivity. Qed.

(** The LED-current field (register 0x04, bits 8-10) declared with the high
    byte first, on a sensor whose PS_MS word reads 0x8001: writing 5 and
    reading back.  The same field as the register map declares it
    ([lsb_first=True]) cannot be written. *)
Example roundtrip_on_sensor :
  let s := Sim.state (Sim.device [(0x04, 0x8001)] []) 0x60 [] in
  let msb := VCNL4040.built (RWBits.__init__ 3 0x04 8 2 false) in
  RWBits.__init__ 3 0x04 8 2 false = inr msb
  /\ snd (bind (RWBits.__set__ msb 5) (fun _ => RWBits.__get__ msb) s) = inr 5
  /\ writes (log (fst (RWBits.__set__ msb 5 s))) = [EvWrite 0x60 0x04 [5; 128]]
  /\ snd (RWBits.__set__ VCNL4040.led_current 5 s) = inl IndexError
  /\ writes (log (fst (RWBits.__set__ VCNL4040.led_current 5 s))) = [].
Proof. cbv zeta. repeat split; vm_compute; reflexivity. Qed.

(** * Further properties of the accessors *)

(** ** Reading a single bit *)

Lemma land_bit_nonzero (a k : Z) :
  0 <= k -> negb (Z.land a (Z.shiftl 1 k) =? 0) = Z.testbit a k.
Proof.
  intros Hk. rewrite <- land_bit_positive by assumption.
  assert (0 <= Z.land a (Z.shiftl 1 k))
    by (apply Z.land_nonneg; right; apply Z.shiftl_nonneg; lia).
  destruct (Z.eqb_spec (Z.land a (Z.shiftl 1 k)) 0) as [-> | Hne]; [reflexivity |].
  symmetry. apply Z.ltb_lt. lia.
Qed.

(** Python's [buf[i]] and [buf[i + len(buf)]] are the same item for a
    negative [i]. *)
Lemma py_index_wrap (len : nat) (i : Z) :
  - Z.of_nat len <= i < 0 -> py_index len i = py_index len (i + Z.of_nat len).
Proof.
  intros Hi. unfold py_index.
  replace (0 <=? i) with false by (symmetry; apply Z.leb_gt; lia).
  replace (- Z.of_nat len <=? i) with true by (symmetry; apply Z.leb_le; lia).
  replace (i <? 0) with true by (symmetry; apply Z.ltb_lt; lia).
  replace (0 <=? i + Z.of_nat len) with true by (symmetry; apply Z.leb_le; lia).
  replace (i + Z.of_nat len <? Z.of_nat len) with true
    by (symmetry; apply Z.ltb_lt; lia).
  cbn [andb]. f_equal. lia.
Qed.

Lemma py_index_above (len : nat) (i : Z) :
  Z.of_nat len <= i -> py_index len i = None.
Proof.
  intros Hi. unfold py_index.
  replace (i <? Z.of_nat len) with false by (symmetry; apply Z.ltb_ge; lia).
  replace (i <? 0) with false by (symmetry; apply Z.ltb_ge; lia).
  now rewrite !andb_false_r.
Qed.

Section SingleBitRead.
Context {B : Type} `{I2C B}.

(** What [RWBit.__get__] does when its bit lies in the register. *)
Lemma RWBit_get_run (reg bit : Z) (width : nat) (lsb_first : bool) (s : State B) :
  0 <= bit < 8 * Z.of_nat width ->
  let r := readfrom_mem (i2c s) (address s) reg width in
  RWBit.__get__ (RWBit.__init__ reg bit width lsb_first) s =
    (mkState (fst r) (address s) (cached_interrupt_state s)
       (log s ++ [EvRead (address s) reg width]),
     inr (Z.testbit (register_bits lsb_first (snd r)) bit)).
Proof.
  intros Hbit r.
  assert (Hq : 0 <= bit / 8 < Z.of_nat width)
    by (split; [apply Z.div_pos; lia | apply Z.div_lt_upper_bound; lia]).
  assert (Hr : 0 <= bit mod 8 < 8) by (apply Z.mod_pos_bound; lia).
  assert (Hlen : length (snd r) = width) by apply readfrom_mem_length.
  assert (Hbytes : Forall is_byte (snd r)) by apply readfrom_mem_bytes.
  unfold RWBit.__get__, bind, lift, ret.
  cbn [RWBit.__init__ RWBit.buffer RWBit.register RWBit.byte RWBit.bit_mask].
  rewrite bytearray_length, readfrom_mem_into_run. fold r.
  rewrite bytearray_getitem_in by (rewrite Hlen; destruct lsb_first; lia).
  rewrite land_bit_nonzero by lia.
  rewrite register_bits_testbit by (assumption || lia).
  rewrite Hlen.
  replace (Z.to_nat (bit / 8) <? width)%nat with true
    by (symmetry; apply Nat.ltb_lt; lia).
  do 3 f_equal. destruct lsb_first; f_equal; lia.
Qed.

(** X1.  Reading through a single-bit accessor whose bit lies in the
    register is one bus read of the whole register and no write, and
    returns bit [bit] of the register, counted across the whole register
    in the accessor's byte order. *)
Theorem X1_RWBit_get_reads_bit
    (reg bit : Z) (width : nat) (lsb_first : bool) (s : State B) :
  0 <= bit < 8 * Z.of_nat width ->
  let r := readfrom_mem (i2c s) (address s) reg width in
  let s' := fst (RWBit.__get__ (RWBit.__init__ reg bit width lsb_first) s) in
  snd (RWBit.__get__ (RWBit.__init__ reg bit width lsb_first) s)
    = inr (Z.testbit (register_bits lsb_first (snd r)) bit)
  /\ log s' = log s ++ [EvRead (address s) reg width]
  /\ i2c s' = fst r
  /\ cached_interrupt_state s' = cached_interrupt_state s.
Proof.
  intros Hbit r s'. subst s'.
  rewrite (RWBit_get_run reg bit width lsb_first s Hbit). fold r.
  repeat split.
Qed.

(** X2.  A bit written through a single-bit accessor reads back: after
    [write(value)], a read of the register that returns the bytes written
    makes [read()] return [value]. *)
Theorem X2_RWBit_write_then_read
    (reg bit : Z) (width : nat) (lsb_first value : bool) (s : State B) :
  0 <= bit < 8 * Z.of_nat width ->
  let self := RWBit.__init__ reg bit width lsb_first in
  exists data,
    snd (RWBit.__set__ self value s) = inr tt
    /\ writes (log (fst (RWBit.__set__ self value s)))
       = writes (log s) ++ [EvWrite (address s) reg data]
    /\ forall s1 : State B,
         snd (readfrom_mem (i2c s1) (address s1) reg width) = data ->
         snd (RWBit.__get__ self s1) = inr value.
Proof.
  intros Hbit self.
  pose proof (RWBit_set_run reg bit width lsb_first value s Hbit) as Hrun.
  cbv zeta in Hrun. fold self in Hrun.
  set (r := readfrom_mem (i2c s) (address s) reg width) in *.
  assert (Hlen : length (snd r) = width) by apply readfrom_mem_length.
  assert (Hbytes : Forall is_byte (snd r)) by apply readfrom_mem_bytes.
  pose proof (RWBit_set_data reg bit lsb_first value (snd r) Hbytes
                ltac:(rewrite Hlen; exact Hbit)) as Hdata.
  cbv zeta in Hdata. rewrite Hlen in Hdata. fold self in Hdata.
  destruct Hdata as (_ & _ & Hbits).
  eexists. rewrite Hrun. split; [reflexivity |]. split.
  - cbn [fst log]. unfold writes. rewrite List.filter_app.
    cbn [List.filter is_write]. reflexivity.
  - intros s1 Hread. subst self.
    rewrite (RWBit_get_run reg bit width lsb_first s1 Hbit). cbn [snd].
    rewrite Hread, Hbits. f_equal.
    destruct value.
    + rewrite Z.setbit_eqb, Z.eqb_refl by lia. reflexivity.
    + rewrite Z.clearbit_eqb, Z.eqb_refl. apply andb_false_r.
Qed.

(** X3.  The bit index of a single-bit accessor is not checked when the
    accessor is built.  With [lsb_first=True] and an index at or above the
    register's width, every read and every write reads the register from
    the bus and then raises [IndexError]; nothing is written. *)
Theorem X3_RWBit_bit_outside_register
    (reg bit : Z) (width : nat) (value : bool) (s : State B) :
  8 * Z.of_nat width <= bit ->
  let self := RWBit.__init__ reg bit width true in
  let after_read :=
    mkState (fst (readfrom_mem (i2c s) (address s) reg width)) (address s)
      (cached_interrupt_state s) (log s ++ [EvRead (address s) reg width]) in
  RWBit.__get__ self s = (after_read, inl IndexError)
  /\ RWBit.__set__ self value s = (after_read, inl IndexError)
  /\ writes (log after_read) = writes (log s).
Proof.
  intros Hbit self after_read.
  assert (Hq : Z.of_nat width <= bit / 8) by (apply Z.div_le_lower_bound; lia).
  pose proof (readfrom_mem_length (i2c s) (address s) reg width) as Hlen.
  assert (Hitem : bytearray_getitem
                    (snd (readfrom_mem (i2c s) (address s) reg width)) (bit / 8)
                  = inl IndexError).
  { unfold bytearray_getitem. rewrite py_index_above by (rewrite Hlen; lia).
    reflexivity. }
  split; [| split].
  - unfold RWBit.__get__, bind, lift. subst self.
    cbn [RWBit.__init__ RWBit.buffer RWBit.register RWBit.byte].
    rewrite bytearray_length, readfrom_mem_into_run, Hitem. reflexivity.
  - unfold RWBit.__set__, bind, lift. subst self.
    cbn [RWBit.__init__ RWBit.buffer RWBit.register RWBit.byte].
    rewrite bytearray_length, readfrom_mem_into_run, Hitem. reflexivity.
  - subst after_read. cbn [log]. unfold writes. rewrite List.filter_app.
    cbn [List.filter is_write]. apply app_nil_r.
Qed.

(** X4.  With [lsb_first=False] a bit index one register width too high is
    not rejected either: the byte index it yields is negative, Python wraps
    it, and the accessor reads and writes bit [bit - 8 * width] of the
    register, exactly as the accessor built with that index does. *)
Theorem X4_RWBit_msb_first_index_wraps
    (reg bit : Z) (width : nat) (value : bool) (s : State B) :
  8 * Z.of_nat width <= bit < 16 * Z.of_nat width ->
  let high := RWBit.__init__ reg bit width false in
  let low := RWBit.__init__ reg (bit - 8 * Z.of_nat width) width false in
  RWBit.__get__ high s = RWBit.__get__ low s
  /\ RWBit.__set__ high value s = RWBit.__set__ low value s
  /\ snd (RWBit.__get__ high s)
     = inr (Z.testbit
              (register_bits false (snd (readfrom_mem (i2c s) (address s) reg width)))
              (bit - 8 * Z.of_nat width)).
Proof.
  intros Hbit high low.
  assert (Hdiv : (bit - 8 * Z.of_nat width) / 8 = bit / 8 - Z.of_nat width).
  { replace (bit - 8 * Z.of_nat width) with (bit + (- Z.of_nat width) * 8) by lia.
    rewrite Z.div_add by lia. lia. }
  assert (Hmod : (bit - 8 * Z.of_nat width) mod 8 = bit mod 8).
  { replace (bit - 8 * Z.of_nat width) with (bit + (- Z.of_nat width) * 8) by lia.
    apply Z.mod_add. lia. }
  assert (Hq : Z.of_nat width <= bit / 8 < 2 * Z.of_nat width)
    by (split; [apply Z.div_le_lower_bound; lia | apply Z.div_lt_upper_bound; lia]).
  pose proof (readfrom_mem_length (i2c s) (address s) reg width) as Hlen.
  assert (Hget : forall buf : list Z, length buf = width ->
            bytearray_getitem buf (RWBit.byte high)
            = bytearray_getitem buf (RWBit.byte low)).
  { intros buf Hbuf. unfold bytearray_getitem. subst high low.
    cbn [RWBit.__init__ RWBit.byte]. rewrite Hdiv.
    rewrite py_index_wrap by (rewrite Hbuf; lia).
    rewrite Hbuf.
    replace (Z.of_nat width - (bit / 8 - Z.of_nat width) - 1)
      with (Z.of_nat width - bit / 8 - 1 + Z.of_nat width) by lia.
    reflexivity. }
  assert (Hset : forall (buf : list Z) (x : Z), length buf = width ->
            bytearray_setitem buf (RWBit.byte high) x
            = bytearray_setitem buf (RWBit.byte low) x).
  { intros buf x Hbuf. unfold bytearray_setitem. subst high low.
    cbn [RWBit.__init__ RWBit.byte]. rewrite Hdiv.
    rewrite py_index_wrap by (rewrite Hbuf; lia).
    rewrite Hbuf.
    replace (Z.of_nat width - (bit / 8 - Z.of_nat width) - 1)
      with (Z.of_nat width - bit / 8 - 1 + Z.of_nat width) by lia.
    reflexivity. }
  assert (Hmask : RWBit.bit_mask high = RWBit.bit_mask low)
    by (subst high low; cbn [RWBit.__init__ RWBit.bit_mask]; now rewrite Hmod).
  assert (Hgets : RWBit.__get__ high s = RWBit.__get__ low s).
  { unfold RWBit.__get__, bind, lift.
    change (RWBit.register high) with reg. change (RWBit.register low) with reg.
    change (RWBit.buffer high) with (bytearray width).
    change (RWBit.buffer low) with (bytearray width).
    rewrite bytearray_length, readfrom_mem_into_run.
    rewrite (Hget _ Hlen), Hmask. reflexivity. }
  split; [exact Hgets |]. split.
  - unfold RWBit.__set__, bind, lift.
    change (RWBit.register high) with reg. change (RWBit.register low) with reg.
    change (RWBit.buffer high) with (bytearray width).
    change (RWBit.buffer low) with (bytearray width).
    rewrite bytearray_length, readfrom_mem_into_run.
    rewrite (Hget _ Hlen), Hmask.
    destruct (bytearray_getitem _ (RWBit.byte low)) as [e | x]; [reflexivity |].
    rewrite (Hset _ _ Hlen). reflexivity.
  - rewrite Hgets. subst low.
    rewrite RWBit_get_run by lia. reflexivity.
Qed.

End SingleBitRead.

(** ** Reading and writing a field *)

(** Masking a register with the mask of a field and shifting the field
    down gives the [num_bits] bits of the register from bit [lowest_bit]
    on. *)
Lemma field_extract_testbit (num_bits lowest_bit : nat) (x i : Z) :
  0 <= i ->
  Z.testbit
    (Z.shiftr
       (Z.land x
          (Z.shiftl (Z.shiftl 1 (Z.of_nat num_bits) - 1) (Z.of_nat lowest_bit)))
       (Z.of_nat lowest_bit)) i =
  (i <? Z.of_nat num_bits) && Z.testbit x (Z.of_nat lowest_bit + i).
Proof.
  intros Hi.
  rewrite Z.shiftr_spec, Z.land_spec, field_mask_testbit by lia.
  replace (Z.of_nat lowest_bit <=? i + Z.of_nat lowest_bit) with true
    by (symmetry; apply Z.leb_le; lia).
  replace (i + Z.of_nat lowest_bit <? Z.of_nat lowest_bit + Z.of_nat num_bits)
    with (i <? Z.of_nat num_bits)
    by (destruct (Z.ltb_spec i (Z.of_nat num_bits)),
          (Z.ltb_spec (i + Z.of_nat lowest_bit)
             (Z.of_nat lowest_bit + Z.of_nat num_bits)); (reflexivity || lia)).
  cbn [andb]. rewrite andb_comm. do 2 f_equal. lia.
Qed.

Lemma field_extract_range (num_bits lowest_bit : nat) (x : Z) :
  0 <= Z.shiftr
         (Z.land x
            (Z.shiftl (Z.shiftl 1 (Z.of_nat num_bits) - 1) (Z.of_nat lowest_bit)))
         (Z.of_nat lowest_bit)
    < 2 ^ Z.of_nat num_bits.
Proof.
  assert (Hnn : 0 <= Z.shiftr
           (Z.land x
              (Z.shiftl (Z.shiftl 1 (Z.of_nat num_bits) - 1) (Z.of_nat lowest_bit)))
           (Z.of_nat lowest_bit)).
  { apply Z.shiftr_nonneg, Z.land_nonneg. right. apply field_mask_nonneg. }
  split; [exact Hnn |].
  apply fits_in_bits_lt; [exact Hnn | lia |].
  intros i Hi. rewrite field_extract_testbit by lia.
  replace (i <? Z.of_nat num_bits) with false by (symmetry; apply Z.ltb_ge; lia).
  reflexivity.
Qed.

Section FieldAccess.
Context {B : Type} `{I2C B}.

(** [__set__] on an accessor with [lsb_first=False]: the register is read
    high byte first, the field is cleared, the shifted value or-ed in, and
    the low [8 * len] bits are written back high byte first. *)
Lemma RWBits_set_msb_first_run (self : RWBits.t) (value : Z) (s : State B) :
  RWBits.lsb_first self = false ->
  let n := length (RWBits.buffer self) in
  let r := readfrom_mem (i2c s) (address s) (RWBits.register self) n in
  let data :=
    rev (le_encode n
           (Z.lor (Z.land (register_bits false (snd r)) (Z.lnot (RWBits.bit_mask self)))
              (Z.shiftl value (Z.of_nat (RWBits.lowest_bit self))))) in
  RWBits.__set__ self value s =
    (mkState (writeto_mem (fst r) (address s) (RWBits.register self) data)
       (address s) (cached_interrupt_state s)
       (log s ++ [EvRead (address s) (RWBits.register self) n;
                  EvWrite (address s) (RWBits.register self) data]),
     inr tt).
Proof.
  intros Hmsb n r data.
  assert (Hlen : length (snd r) = n) by apply readfrom_mem_length.
  unfold RWBits.__set__, bind, lift. rewrite Hmsb. cbn [negb].
  rewrite readfrom_mem_into_run. fold n r.
  rewrite assemble_in.
  2:{ rewrite range_up. apply Forall_forall. intros i Hi.
      apply list_elem_of_In, in_map_iff in Hi. destruct Hi as (k & <- & Hk).
      apply in_seq in Hk. lia. }
  rewrite range_up, map_map.
  replace (map (fun x : nat => nth (Z.to_nat (Z.of_nat x + 0)) (snd r) 0)
             (seq 0 (length (snd r)))) with (snd r).
  2:{ rewrite <- (map_nth_seq (snd r)) at 1. apply map_ext. intros k.
      f_equal. lia. }
  rewrite fold_shift_in. fold (register_bits false (snd r)).
  rewrite <- range_up, disassemble_up, Hlen.
  unfold i2c_writeto_mem. cbn [i2c address cached_interrupt_state log].
  fold data. rewrite <- app_assoc. reflexivity.
Qed.

(** X5.  Reading through a field accessor is one bus read of the whole
    register and no write; the value returned is the [num_bits] bits of the
    register from bit [lowest_bit] on, in the accessor's byte order, so it
    lies in [0, 2^num_bits - 1]. *)
Theorem X5_RWBits_get_reads_field
    (num_bits lowest_bit width : nat) (reg : Z) (lsb_first : bool)
    (self : RWBits.t) (s : State B) :
  RWBits.__init__ num_bits reg lowest_bit width lsb_first = inr self ->
  let r := readfrom_mem (i2c s) (address s) reg width in
  exists v,
    RWBits.__get__ self s =
      (mkState (fst r) (address s) (cached_interrupt_state s)
         (log s ++ [EvRead (address s) reg width]), inr v)
    /\ 0 <= v < 2 ^ Z.of_nat num_bits
    /\ forall i, 0 <= i ->
         Z.testbit v i =
           (i <? Z.of_nat num_bits)
           && Z.testbit (register_bits lsb_first (snd r)) (Z.of_nat lowest_bit + i).
Proof.
  intros Hinit r. unfold RWBits.__init__ in Hinit.
  destruct (_ <=? _) in Hinit; [discriminate |]. injection Hinit as <-.
  rewrite RWBits_get_run.
  cbn [RWBits.register RWBits.buffer RWBits.lsb_first RWBits.bit_mask
         RWBits.lowest_bit].
  rewrite bytearray_length. fold r.
  eexists. split; [reflexivity |]. split.
  - apply field_extract_range.
  - intros i Hi. now apply field_extract_testbit.
Qed.

(** X7.  What a write through a field accessor with [lsb_first=False] puts
    on the bus, bit by bit: inside the register, a bit of the field is the
    matching bit of the value, and a bit outside the field is the old bit
    or-ed with the bit of the shifted value at that place -- the value is
    not masked to the field.  For a value within [0, 2^num_bits - 1] every
    bit outside the field is therefore written back unchanged. *)
Theorem X7_RWBits_msb_first_write_bits
    (num_bits lowest_bit width : nat) (reg value : Z) (self : RWBits.t)
    (s : State B) :
  RWBits.__init__ num_bits reg lowest_bit width false = inr self ->
  let r := readfrom_mem (i2c s) (address s) reg width in
  let old := register_bits false (snd r) in
  let in_field (j : Z) :=
    (Z.of_nat lowest_bit <=? j) && (j <? Z.of_nat lowest_bit + Z.of_nat num_bits) in
  exists data,
    RWBits.__set__ self value s =
      (mkState (writeto_mem (fst r) (address s) reg data) (address s)
         (cached_interrupt_state s)
         (log s ++ [EvRead (address s) reg width; EvWrite (address s) reg data]),
       inr tt)
    /\ length data = width /\ Forall is_byte data
    /\ (forall j, 0 <= j ->
          Z.testbit (register_bits false data) j =
            (j <? 8 * Z.of_nat width)
            && ((Z.testbit old j && negb (in_field j))
                || Z.testbit value (j - Z.of_nat lowest_bit)))
    /\ (0 <= value < 2 ^ Z.of_nat num_bits ->
        forall j, 0 <= j -> in_field j = false ->
          Z.testbit (register_bits false data) j = Z.testbit old j).
Proof.
  intros Hinit r old in_field. unfold RWBits.__init__ in Hinit.
  destruct (_ <=? _) in Hinit; [discriminate |]. injection Hinit as <-.
  pose proof (RWBits_set_msb_first_run
                (RWBits.mk
                   (Z.shiftl (Z.shiftl 1 (Z.of_nat num_bits) - 1) (Z.of_nat lowest_bit))
                   lowest_bit (bytearray width) false reg) value s eq_refl) as Hrun.
  cbv zeta in Hrun.
  cbn [RWBits.register RWBits.buffer RWBits.bit_mask RWBits.lowest_bit] in Hrun.
  rewrite bytearray_length in Hrun. fold r old in Hrun.
  assert (Hbytes : Forall is_byte (snd r)) by apply readfrom_mem_bytes.
  assert (Hlen : length (snd r) = width) by apply readfrom_mem_length.
  assert (Hbits : forall j, 0 <= j ->
    Z.testbit
      (register_bits false
         (rev (le_encode width
                 (Z.lor
                    (Z.land old
                       (Z.lnot
                          (Z.shiftl (Z.shiftl 1 (Z.of_nat num_bits) - 1)
                             (Z.of_nat lowest_bit))))
                    (Z.shiftl value (Z.of_nat lowest_bit)))))) j =
    (j <? 8 * Z.of_nat width)
    && ((Z.testbit old j && negb (in_field j))
        || Z.testbit value (j - Z.of_nat lowest_bit))).
  { intros j Hj. unfold register_bits at 1. rewrite rev_involutive.
    rewrite le_decode_encode_testbit by assumption.
    rewrite Z.lor_spec, Z.land_spec, Z.lnot_spec by lia.
    rewrite field_mask_testbit by lia.
    rewrite Z.shiftl_spec by lia. reflexivity. }
  eexists. split; [exact Hrun |].
  split; [now rewrite length_rev, le_encode_length |].
  split; [apply Forall_rev, le_encode_bytes |].
  split; [exact Hbits |].
  intros Hvalue j Hj Hout. rewrite Hbits by assumption. rewrite Hout. cbn [negb].
  rewrite andb_true_r.
  assert (Hv : Z.testbit value (j - Z.of_nat lowest_bit) = false).
  { destruct (Z_lt_le_dec j (Z.of_nat lowest_bit)) as [Hlow | Hhigh];
      [apply Z.testbit_neg_r; lia |].
    subst in_field. cbv beta in Hout.
    replace (Z.of_nat lowest_bit <=? j) with true in Hout
      by (symmetry; apply Z.leb_le; lia).
    cbn [andb] in Hout. apply Z.ltb_ge in Hout.
    destruct (Z.eq_dec value 0) as [-> | Hnz]; [apply Z.bits_0 |].
    apply Z.bits_above_log2; [lia |].
    assert (Z.log2 value < Z.of_nat num_bits) by (apply Z.log2_lt_pow2; lia).
    lia. }
  rewrite Hv, orb_false_r.
  destruct (Z.ltb_spec j (8 * Z.of_nat width)) as [Hin | Hover]; [reflexivity |].
  cbn [andb]. symmetry. unfold old, register_bits.
  apply le_decode_testbit_high; [now apply Forall_rev |].
  rewrite length_rev, Hlen. lia.
Qed.

End FieldAccess.

(** ** Fields that share a register *)

Section SharedRegister.
Context {B : Type} `{I2C B}.

(** X15.  Writing a single bit does not disturb what the other accessors
    of the same register read: after the write, on a register that holds
    the bytes written, every field that does not contain the bit and every
    other single bit read as they did before the write. *)
Theorem X15_RWBit_write_keeps_other_fields
    (reg bit : Z) (width : nat) (lsb_first value : bool) (s : State B) :
  0 <= bit < 8 * Z.of_nat width ->
  exists data,
    snd (RWBit.__set__ (RWBit.__init__ reg bit width lsb_first) value s) = inr tt
    /\ writes (log (fst (RWBit.__set__ (RWBit.__init__ reg bit width lsb_first)
                           value s)))
       = writes (log s) ++ [EvWrite (address s) reg data]
    /\ forall s1 : State B,
         snd (readfrom_mem (i2c s1) (address s1) reg width) = data ->
         (forall (num_bits lowest_bit : nat) (field : RWBits.t),
             RWBits.__init__ num_bits reg lowest_bit width lsb_first = inr field ->
             (bit < Z.of_nat lowest_bit
              \/ Z.of_nat lowest_bit + Z.of_nat num_bits <= bit) ->
             snd (RWBits.__get__ field s1) = snd (RWBits.__get__ field s))
         /\ (forall other : Z,
               0 <= other < 8 * Z.of_nat width -> other <> bit ->
               snd (RWBit.__get__ (RWBit.__init__ reg other width lsb_first) s1)
               = snd (RWBit.__get__ (RWBit.__init__ reg other width lsb_first) s)).
Proof.
  intros Hbit.
  pose proof (RWBit_set_run reg bit width lsb_first value s Hbit) as Hrun.
  cbv zeta in Hrun.
  set (r := readfrom_mem (i2c s) (address s) reg width) in *.
  assert (Hlen : length (snd r) = width) by apply readfrom_mem_length.
  assert (Hbytes : Forall is_byte (snd r)) by apply readfrom_mem_bytes.
  pose proof (RWBit_set_data reg bit lsb_first value (snd r) Hbytes
                ltac:(rewrite Hlen; exact Hbit)) as Hdata.
  cbv zeta in Hdata. rewrite Hlen in Hdata.
  destruct Hdata as (_ & _ & Hbits).
  assert (Hother : forall i, i <> bit ->
            Z.testbit (if value
                       then Z.setbit (register_bits lsb_first (snd r)) bit
                       else Z.clearbit (register_bits lsb_first (snd r)) bit) i
            = Z.testbit (register_bits lsb_first (snd r)) i).
  { intros i Hi. destruct value.
    - destruct (Z_lt_le_dec i 0); [now rewrite !Z.testbit_neg_r by lia |].
      rewrite Z.setbit_eqb by lia.
      destruct (Z.eqb_spec bit i); [congruence | reflexivity].
    - rewrite Z.clearbit_eqb.
      destruct (Z.eqb_spec bit i); [congruence | apply andb_true_r]. }
  eexists. rewrite Hrun. split; [reflexivity |]. split.
  - cbn [fst log]. unfold writes. rewrite List.filter_app.
    cbn [List.filter is_write]. reflexivity.
  - intros s1 Hread. split.
    + intros num_bits lowest_bit field Hinit Hout.
      unfold RWBits.__init__ in Hinit.
      destruct (_ <=? _) in Hinit; [discriminate |]. injection Hinit as <-.
      rewrite !RWBits_get_run.
      cbn [RWBits.register RWBits.buffer RWBits.lsb_first RWBits.bit_mask
             RWBits.lowest_bit snd].
      rewrite bytearray_length, Hread. fold r. f_equal.
      apply Z.bits_inj'. intros i Hi.
      rewrite !field_extract_testbit by assumption.
      destruct (Z.ltb_spec i (Z.of_nat num_bits)) as [Hin | _]; [| reflexivity].
      cbn [andb]. rewrite Hbits. apply Hother. lia.
    + intros other Hrange Hne.
      rewrite !RWBit_get_run by assumption. cbn [snd].
      rewrite Hread. fold r. f_equal. rewrite Hbits. now apply Hother.
Qed.

(** X14.  Every field of the register map reads as one of the options
    declared for it: the ambient-light integration time as one of the four
    [ALS_*] settings, the proximity integration time as one of the eight
    [PS_*T] settings, the proximity interrupt mode as one of the four
    [PS_INT_*] modes, the LED current as one of the eight [LED_*MA]
    settings and the LED duty cycle as one of the four [LED_1_*] ratios,
    whatever the bus returns. *)
Theorem X14_fields_read_declared_options (s : State B) :
  (exists v, snd (VCNL4040.light_integration_time s) = inr v
     /\ v ∈ [VCNL4040.ALS_80MS; VCNL4040.ALS_160MS; VCNL4040.ALS_320MS;
             VCNL4040.ALS_640MS])
  /\ (exists v, snd (RWBits.__get__ VCNL4040.proximity_integration_time s) = inr v
        /\ v ∈ [VCNL4040.PS_1T; VCNL4040.PS_1_5T; VCNL4040.PS_2T; VCNL4040.PS_2_5T;
                VCNL4040.PS_3T; VCNL4040.PS_3_5T; VCNL4040.PS_4T; VCNL4040.PS_8T])
  /\ (exists v, snd (RWBits.__get__ VCNL4040.proximity_interrupt s) = inr v
        /\ v ∈ [VCNL4040.PS_INT_DISABLE; VCNL4040.PS_INT_CLOSE; VCNL4040.PS_INT_AWAY;
                VCNL4040.PS_INT_CLOSE_AWAY])
  /\ (exists v, snd (RWBits.__get__ VCNL4040.led_current s) = inr v
        /\ v ∈ [VCNL4040.LED_50MA; VCNL4040.LED_75MA; VCNL4040.LED_100MA;
                VCNL4040.LED_120MA; VCNL4040.LED_140MA; VCNL4040.LED_160MA;
                VCNL4040.LED_180MA; VCNL4040.LED_200MA])
  /\ (exists v, snd (RWBits.__get__ VCNL4040.led_duty_cycle s) = inr v
        /\ v ∈ [VCNL4040.LED_1_40; VCNL4040.LED_1_80; VCNL4040.LED_1_160;
                VCNL4040.LED_1_320]).
Proof.
  assert (Hfield : forall (num_bits lowest_bit : nat) (reg : Z) (field : RWBits.t),
            RWBits.__init__ num_bits reg lowest_bit 2 true = inr field ->
            exists v, snd (RWBits.__get__ field s) = inr v
                      /\ 0 <= v < 2 ^ Z.of_nat num_bits).
  { intros num_bits lowest_bit reg field Hinit. unfold RWBits.__init__ in Hinit.
    destruct (_ <=? _) in Hinit; [discriminate |]. injection Hinit as <-.
    rewrite RWBits_get_run. cbn [snd RWBits.bit_mask RWBits.lowest_bit].
    eexists. split; [reflexivity | apply field_extract_range]. }
  assert (H4 : forall v : Z, 0 <= v < 2 ^ Z.of_nat 2 -> v ∈ [0; 1; 2; 3]).
  { intros v Hv. change (2 ^ Z.of_nat 2) with 4 in Hv. rewrite !elem_of_cons. lia. }
  assert (H8 : forall v : Z, 0 <= v < 2 ^ Z.of_nat 3 ->
                 v ∈ [0; 1; 2; 3; 4; 5; 6; 7]).
  { intros v Hv. change (2 ^ Z.of_nat 3) with 8 in Hv. rewrite !elem_of_cons. lia. }
  repeat split.
  - destruct (Hfield 2%nat 6%nat 0 VCNL4040._light_integration_time eq_refl)
      as (v & Hv & Hr).
    exists v. split; [exact Hv | now apply H4].
  - destruct (Hfield 3%nat 1%nat 3 VCNL4040.proximity_integration_time eq_refl)
      as (v & Hv & Hr).
    exists v. split; [exact Hv | now apply H8].
  - destruct (Hfield 2%nat 8%nat 3 VCNL4040.proximity_interrupt eq_refl)
      as (v & Hv & Hr).
    exists v. split; [exact Hv | now apply H4].
  - destruct (Hfield 3%nat 8%nat 4 VCNL4040.led_current eq_refl) as (v & Hv & Hr).
    exists v. split; [exact Hv | now apply H8].
  - destruct (Hfield 2%nat 6%nat 3 VCNL4040.led_duty_cycle eq_refl) as (v & Hv & Hr).
    exists v. split; [exact Hv | now apply H4].
Qed.

End SharedRegister.

(** ** Whole registers of any format *)

Lemma le_decode_range (bs : list Z) :
  Forall is_byte bs -> 0 <= le_decode bs < 2 ^ (8 * Z.of_nat (length bs)).
Proof.
  intros Hbs. pose proof (le_decode_nonneg bs Hbs) as Hnn.
  split; [exact Hnn |].
  apply fits_in_bits_lt; [exact Hnn | lia |].
  intros i Hi. now apply le_decode_testbit_high.
Qed.

Section WholeRegisterRead.
Context {B : Type} `{I2C B}.

(** X8.  Reading a whole register of any format of an unsigned integer
    ([B], [H] or [I], either byte order) is one bus read of exactly the
    format's size and no write; the value is the register's bytes taken in
    the format's byte order and lies in [0, 2^(8 * size) - 1]. *)
Theorem X8_UnaryStruct_get_value
    (fmt : string) (reg : Z) (little : bool) (size : nat) (s : State B) :
  parse_format fmt = Some (little, size) ->
  let r := readfrom_mem (i2c s) (address s) reg size in
  UnaryStruct.__get__ (UnaryStruct.__init__ reg fmt) s =
    (mkState (fst r) (address s) (cached_interrupt_state s)
       (log s ++ [EvRead (address s) reg size]),
     inr (register_bits little (snd r)))
  /\ 0 <= register_bits little (snd r) < 2 ^ (8 * Z.of_nat size).
Proof.
  intros Hfmt r.
  assert (Hlen : length (snd r) = size) by apply readfrom_mem_length.
  assert (Hbytes : Forall is_byte (snd r)) by apply readfrom_mem_bytes.
  split.
  - unfold UnaryStruct.__get__, UnaryStruct.__init__, bind, lift, calcsize,
      unpack_from.
    cbn [UnaryStruct.format UnaryStruct.register]. rewrite Hfmt.
    rewrite readfrom_mem_into_run. fold r. rewrite Hlen.
    replace (0 + size <=? size)%nat with true
      by (symmetry; apply Nat.leb_le; lia).
    rewrite drop_0, take_ge by lia. reflexivity.
  - unfold register_bits. destruct little.
    + rewrite <- Hlen. now apply le_decode_range.
    + rewrite <- Hlen, <- length_rev. apply le_decode_range. now apply Forall_rev.
Qed.

(** X9.  No write through a whole-register accessor reaches the bus,
    whatever the format and the value: [UnaryStruct.__set__] always raises
    from [struct] (the buffer of [calcsize] bytes never holds the field at
    offset 1) and [ROUnaryStruct.__set__] always raises [AttributeError];
    both leave the bus, the log and the object as they were. *)
Theorem X9_whole_register_write_never_reaches_bus
    (fmt : string) (reg value : Z) (s : State B) :
  UnaryStruct.__set__ (UnaryStruct.__init__ reg fmt) value s = (s, inl StructError)
  /\ ROUnaryStruct.__set__ (ROUnaryStruct.__init__ reg fmt) value s
     = (s, inl AttributeError).
Proof.
  split; [| reflexivity].
  unfold UnaryStruct.__set__, UnaryStruct.__init__, bind, lift, calcsize, pack_into.
  cbn [UnaryStruct.format UnaryStruct.register].
  destruct (parse_format fmt) as [[little size] |]; [| reflexivity].
  rewrite bytearray_length.
  replace (1 + size <=? size)%nat with false
    by (symmetry; apply Nat.leb_gt; lia).
  reflexivity.
Qed.

End WholeRegisterRead.

(** ** Reads leave the device alone *)

Section ReadsOnly.
Context {B : Type} `{I2C B}.

Lemma reads_only_ret {A : Type} (x : A) : reads_only (ret (B:=B) x).
Proof. intros s. repeat split. Qed.

Lemma reads_only_lift {A : Type} (r : exn + A) : reads_only (lift (B:=B) r).
Proof. intros s. repeat split. Qed.

Lemma reads_only_bind {A1 A2 : Type} (m : M B A1) (f : A1 -> M B A2) :
  reads_only m -> (forall x, reads_only (f x)) -> reads_only (bind m f).
Proof.
  intros Hm Hf s. unfold bind. specialize (Hm s).
  destruct (m s) as [s' [e | x]]; cbn [fst] in Hm; [exact Hm |].
  destruct Hm as (Hw & Hs & Ha). destruct (Hf x s') as (Hw' & Hs' & Ha').
  repeat split; congruence.
Qed.

Lemma reads_only_readfrom_mem_into (reg : Z) (n : nat) :
  reads_only (readfrom_mem_into (B:=B) reg n).
Proof.
  intros s. rewrite readfrom_mem_into_run. cbn [fst log address].
  unfold writes, sleeps. rewrite !List.filter_app.
  cbn [List.filter is_write is_sleep]. now rewrite !app_nil_r.
Qed.

Lemma reads_only_cache_getitem (key : Z) :
  reads_only (VCNL4040.cache_getitem (B:=B) key).
Proof.
  intros s. unfold VCNL4040.cache_getitem.
  destruct (cached_interrupt_state s !! key); repeat split.
Qed.

Lemma reads_only_cache_setitem (key : Z) (value : bool) :
  reads_only (VCNL4040.cache_setitem (B:=B) key value).
Proof. intros s. repeat split. Qed.

Lemma reads_only_for_each {A : Type} (xs : list A) (body : A -> M B unit) :
  (forall x, reads_only (body x)) -> reads_only (for_each xs body).
Proof.
  intros Hbody. induction xs as [|x xs IH]; cbn [for_each].
  - apply reads_only_ret.
  - apply reads_only_bind; [apply Hbody | intros _; exact IH].
Qed.

Lemma reads_only_UnaryStruct_get (self : UnaryStruct.t) :
  reads_only (UnaryStruct.__get__ (B:=B) self).
Proof.
  unfold UnaryStruct.__get__.
  apply reads_only_bind; [apply reads_only_lift | intros size].
  apply reads_only_bind; [apply reads_only_readfrom_mem_into | intros buf].
  apply reads_only_lift.
Qed.

Lemma reads_only_RWBits_get (self : RWBits.t) :
  reads_only (RWBits.__get__ (B:=B) self).
Proof.
  unfold RWBits.__get__.
  apply reads_only_bind; [apply reads_only_readfrom_mem_into | intros buf].
  apply reads_only_bind; [apply reads_only_lift | intros reg].
  apply reads_only_ret.
Qed.

Lemma reads_only_update_interrupt_state :
  reads_only (VCNL4040._update_interrupt_state (B:=B)).
Proof.
  unfold VCNL4040._update_interrupt_state.
  apply reads_only_bind; [apply reads_only_UnaryStruct_get | intros status].
  apply reads_only_for_each. intros k.
  destruct (0 <? _); [apply reads_only_cache_setitem | apply reads_only_ret].
Qed.

Lemma reads_only_get_and_clear (offset : Z) :
  reads_only (VCNL4040._get_and_clear_cached_interrupt_state (B:=B) offset).
Proof.
  unfold VCNL4040._get_and_clear_cached_interrupt_state.
  apply reads_only_bind; [apply reads_only_update_interrupt_state | intros _].
  apply reads_only_bind; [apply reads_only_cache_getitem | intros b].
  apply reads_only_bind; [apply reads_only_cache_setitem | intros _].
  apply reads_only_ret.
Qed.

(** X13.  No read ever writes to the device: reading a whole register, a
    single bit or a field (through any accessor, well-formed or not),
    [lux], [white], [light_integration_time], a refresh of the interrupt
    cache and every interrupt-flag property add no bus write and no sleep
    to what the program has done, whether they return or raise. *)
Theorem X13_reads_never_write :
  (forall self : UnaryStruct.t, reads_only (UnaryStruct.__get__ (B:=B) self))
  /\ (forall self : ROUnaryStruct.t, reads_only (ROUnaryStruct.__get__ (B:=B) self))
  /\ (forall self : RWBit.t, reads_only (RWBit.__get__ (B:=B) self))
  /\ (forall self : RWBits.t, reads_only (RWBits.__get__ (B:=B) self))
  /\ reads_only (VCNL4040.light_integration_time (B:=B))
  /\ reads_only (VCNL4040.lux (B:=B))
  /\ reads_only (VCNL4040.white (B:=B))
  /\ reads_only (VCNL4040._update_interrupt_state (B:=B))
  /\ (forall offset : Z,
        reads_only (VCNL4040._get_and_clear_cached_interrupt_state (B:=B) offset))
  /\ (forall ps : list flag_property, reads_only (read_flags (B:=B) ps)).
Proof.
  assert (Hderived : forall d : ROUnaryStruct.t,
            reads_only
              (bind (ROUnaryStruct.__get__ (B:=B) d)
                 (fun raw => bind VCNL4040.light_integration_time
                    (fun it => ret (PrimFloat.mul (VCNL4040.float_of_int raw)
                                      (VCNL4040.lux_per_count it)))))).
  { intros d.
    apply reads_only_bind; [apply reads_only_UnaryStruct_get | intros raw].
    apply reads_only_bind; [apply reads_only_RWBits_get | intros it].
    apply reads_only_ret. }
  split; [exact reads_only_UnaryStruct_get |].
  split; [intros self; apply reads_only_UnaryStruct_get |].
  split.
  { intros self. unfold RWBit.__get__.
    apply reads_only_bind; [apply reads_only_readfrom_mem_into | intros buf].
    apply reads_only_bind; [apply reads_only_lift | intros x].
    apply reads_only_ret. }
  split; [exact reads_only_RWBits_get |].
  split; [apply reads_only_RWBits_get |].
  split; [apply Hderived |]. split; [apply Hderived |].
  split; [exact reads_only_update_interrupt_state |].
  split; [exact reads_only_get_and_clear |].
  intros ps. induction ps as [|p ps IH]; cbn [read_flags].
  - apply reads_only_ret.
  - apply reads_only_bind; [destruct p; apply reads_only_get_and_clear | intros b].
    apply reads_only_bind; [exact IH | intros bs]. apply reads_only_ret.
Qed.

End ReadsOnly.

(** ** The interrupt cache over the life of the object *)

Section CacheLife.
Context {B : Type} `{I2C B}.

(** A construction that returns has found the device ID and leaves the
    four flags in the cache, all [False]. *)
Lemma init_returns (bus : B) (addr : Z) :
  snd (VCNL4040.__init__ bus addr) = inr tt ->
  le_decode (snd (readfrom_mem bus addr 0x0C 2)) = 0x186
  /\ cached_interrupt_state (fst (VCNL4040.__init__ bus addr))
     = <[13:=false]> (<[12:=false]> (<[9:=false]> (<[8:=false]> ∅))).
Proof.
  unfold VCNL4040.__init__, VCNL4040.__init__body, bind.
  unfold VCNL4040._device_id. rewrite UnaryStruct_get_run.
  cbn [i2c address cached_interrupt_state log app].
  destruct (Z.eqb_spec (le_decode (snd (readfrom_mem bus addr 12 2))) 390)
    as [Hid | Hid]; cbn [negb]; [| discriminate].
  intros _. split; [exact Hid |].
  unfold VCNL4040.cache_assign.
  unfold VCNL4040.proximity_shutdown, VCNL4040.light_shutdown,
    VCNL4040.white_shutdown.
  rewrite (RWBit_set_run 3 0 2 true false) by lia.
  cbn [i2c address cached_interrupt_state log app].
  rewrite (RWBit_set_run 0 0 2 true false) by lia.
  cbn [i2c address cached_interrupt_state log app].
  rewrite (RWBit_set_run 4 15 2 true false) by lia.
  reflexivity.
Qed.

Lemma flag_offset_in (p : flag_property) : flag_offset p ∈ VCNL4040.interrupts.
Proof.
  unfold VCNL4040.interrupts. rewrite !elem_of_cons.
  destruct p; cbn [flag_offset]; tauto.
Qed.

Lemma read_flag_offset (p : flag_property) :
  read_flag (B:=B) p =
    VCNL4040._get_and_clear_cached_interrupt_state (flag_offset p).
Proof. now destruct p. Qed.

(** Reading a flag property of an object whose cache is ready returns a
    boolean and leaves the cache ready. *)
Lemma read_flag_ready (p : flag_property) (s : State B) :
  cache_ready (cached_interrupt_state s) ->
  exists b s', read_flag p s = (s', inr b)
    /\ cache_ready (cached_interrupt_state s').
Proof.
  intros Hready.
  destruct (Hready (flag_offset p) (flag_offset_in p)) as [c Hc].
  destruct (get_and_clear_run (flag_offset p) c s (flag_offset_in p) Hc)
    as (cache' & Hrun & Hflag & Hrest).
  rewrite read_flag_offset, Hrun.
  eexists _, _. split; [reflexivity |]. cbn [cached_interrupt_state].
  intros k Hk. destruct (decide (k = flag_offset p)) as [-> | Hne].
  - rewrite Hflag. eauto.
  - rewrite Hrest by assumption. destruct (_ && _); [eauto | now apply Hready].
Qed.

Lemma read_flags_ready (ps : list flag_property) (s : State B) :
  cache_ready (cached_interrupt_state s) ->
  exists results s', read_flags ps s = (s', inr results)
    /\ length results = length ps
    /\ cache_ready (cached_interrupt_state s').
Proof.
  revert s. induction ps as [|p ps IH]; intros s Hready.
  - exists [], s. repeat split. exact Hready.
  - destruct (read_flag_ready p s Hready) as (b & s1 & Hrun1 & Hready1).
    destruct (IH s1 Hready1) as (bs & s2 & Hrun2 & Hlen & Hready2).
    exists (b :: bs), s2. cbn [read_flags]. unfold bind. rewrite Hrun1, Hrun2.
    split; [reflexivity |]. split; [cbn [length]; now rewrite Hlen | exact Hready2].
Qed.

(** X10.  On an object whose construction returned, the interrupt-flag
    properties never raise: read in any order and any number of times,
    each read returns a boolean (the cache keeps its four entries
    throughout, so no [KeyError] can occur); and the first read of a flag
    right after construction returns exactly whether its status bit is
    set. *)
Theorem X10_flag_properties_never_raise
    (bus : B) (addr : Z) (ps : list flag_property) :
  snd (VCNL4040.__init__ bus addr) = inr tt ->
  let s := fst (VCNL4040.__init__ bus addr) in
  (exists results,
      snd (read_flags ps s) = inr results
      /\ length results = length ps
      /\ cache_ready (cached_interrupt_state (fst (read_flags ps s))))
  /\ (forall p : flag_property,
        snd (read_flag p s) =
          inr (Z.testbit
                 (le_decode (snd (readfrom_mem (i2c s) (address s) 0x0B 2)))
                 (flag_offset p))).
Proof.
  intros Hinit s.
  destruct (init_returns bus addr Hinit) as (_ & Hcache). fold s in Hcache.
  assert (Hfalse : forall p, cached_interrupt_state s !! flag_offset p = Some false).
  { intros p. rewrite Hcache. destruct p; reflexivity. }
  assert (Hready : cache_ready (cached_interrupt_state s)).
  { intros k Hk. unfold VCNL4040.interrupts in Hk.
    rewrite !elem_of_cons, elem_of_nil in Hk.
    destruct Hk as [-> | [-> | [-> | [-> | []]]]].
    - exists false. exact (Hfalse Proximity_low).
    - exists false. exact (Hfalse Proximity_high).
    - exists false. exact (Hfalse Light_high).
    - exists false. exact (Hfalse Light_low). }
  split.
  { destruct (read_flags_ready ps s Hready) as (results & s' & Hrun & Hlen & Hr).
    exists results. rewrite Hrun. repeat split; assumption. }
  intros p.
  destruct (get_and_clear_run (flag_offset p) false s (flag_offset_in p) (Hfalse p))
    as (cache' & Hrun & _).
  rewrite read_flag_offset, Hrun. reflexivity.
Qed.

(** X11.  Consuming an offset that is not an interrupt flag and has no
    cache entry raises [KeyError] -- after the refresh: the status register
    has been read and the flags it reported are latched, and no entry is
    created for the offset. *)
Theorem X11_consume_missing_key (offset : Z) (s : State B) :
  offset ∉ VCNL4040.interrupts ->
  cached_interrupt_state s !! offset = None ->
  let r := readfrom_mem (i2c s) (address s) 0x0B 2 in
  let status := le_decode (snd r) in
  exists cache',
    VCNL4040._get_and_clear_cached_interrupt_state offset s =
      (mkState (fst r) (address s) cache' (log s ++ [EvRead (address s) 0x0B 2]),
       inl KeyError)
    /\ cache' !! offset = None
    /\ forall k : Z,
         cache' !! k =
           if bool_decide (k ∈ VCNL4040.interrupts) && Z.testbit status k
           then Some true else cached_interrupt_state s !! k.
Proof.
  intros Hnot Hnone r status.
  destruct (update_interrupt_state_run s) as (cache' & Hrun & Hcache).
  fold r status in Hrun, Hcache.
  assert (Hoff : cache' !! offset = None)
    by (rewrite Hcache, bool_decide_eq_false_2 by assumption; exact Hnone).
  exists cache'.
  unfold VCNL4040._get_and_clear_cached_interrupt_state, bind.
  rewrite Hrun. unfold VCNL4040.cache_getitem.
  cbn [cached_interrupt_state]. rewrite Hoff.
  split; [reflexivity |]. split; [reflexivity | exact Hcache].
Qed.

(** X12.  A pending flag is not lost: a flag that is pending in the cache,
    or whose status bit is reported by the read, is pending after a
    refresh and after a consume of any other flag, whatever the status
    register reports for it afterwards; the next consume of the flag
    itself returns [True]. *)
Theorem X12_pending_flag_survives (flag other : Z) (c c' : bool) (s : State B) :
  flag ∈ VCNL4040.interrupts ->
  other ∈ VCNL4040.interrupts ->
  other <> flag ->
  cached_interrupt_state s !! flag = Some c ->
  cached_interrupt_state s !! other = Some c' ->
  c = true
  \/ Z.testbit (le_decode (snd (readfrom_mem (i2c s) (address s) 0x0B 2))) flag
     = true ->
  let refreshed := fst (VCNL4040._update_interrupt_state s) in
  let consumed := fst (VCNL4040._get_and_clear_cached_interrupt_state other s) in
  cached_interrupt_state refreshed !! flag = Some true
  /\ cached_interrupt_state consumed !! flag = Some true
  /\ snd (VCNL4040._get_and_clear_cached_interrupt_state flag refreshed) = inr true
  /\ snd (VCNL4040._get_and_clear_cached_interrupt_state flag consumed) = inr true.
Proof.
  intros Hflag Hother Hne Hc Hc' Hpending refreshed consumed.
  destruct (update_interrupt_state_run s) as (cache1 & Hrun1 & Hcache1).
  destruct (get_and_clear_run other c' s Hother Hc') as (cache2 & Hrun2 & _ & Hcache2).
  assert (Hlatched :
    (if bool_decide (flag ∈ VCNL4040.interrupts)
        && Z.testbit (le_decode (snd (readfrom_mem (i2c s) (address s) 0x0B 2))) flag
     then Some true else cached_interrupt_state s !! flag) = Some true).
  { rewrite bool_decide_eq_true_2 by assumption. cbn [andb]. rewrite Hc.
    destruct (Z.testbit _ flag) eqn:Ebit; [reflexivity |].
    destruct Hpending as [Ht | Ht]; [now rewrite Ht | discriminate Ht]. }
  assert (H1 : cached_interrupt_state refreshed !! flag = Some true).
  { subst refreshed. rewrite Hrun1. cbn [fst cached_interrupt_state].
    now rewrite Hcache1. }
  assert (H2 : cached_interrupt_state consumed !! flag = Some true).
  { subst consumed. rewrite Hrun2. cbn [fst cached_interrupt_state].
    now rewrite Hcache2 by congruence. }
  split; [exact H1 |]. split; [exact H2 |]. split.
  - destruct (get_and_clear_run flag true refreshed Hflag H1) as (c3 & Hrun3 & _).
    now rewrite Hrun3.
  - destruct (get_and_clear_run flag true consumed Hflag H2) as (c3 & Hrun3 & _).
    now rewrite Hrun3.
Qed.

(** X16.  A negative setting handed to the [light_integration_time]
    setter is rejected by the shift [8 << new_it]: the setter reads the
    old setting from the bus and raises [ValueError]; it writes nothing and
    does not sleep. *)
Theorem X16_set_light_integration_time_negative (new_it : Z) (s : State B) :
  new_it < 0 ->
  VCNL4040.set_light_integration_time new_it s =
    (mkState (fst (readfrom_mem (i2c s) (address s) 0x00 2)) (address s)
       (cached_interrupt_state s) (log s ++ [EvRead (address s) 0x00 2]),
     inl ValueError).
Proof.
  intros Hneg. unfold VCNL4040.set_light_integration_time, bind.
  rewrite RWBits_get_run.
  change (RWBits.register VCNL4040._light_integration_time) with 0.
  change (length (RWBits.buffer VCNL4040._light_integration_time)) with 2%nat.
  change (RWBits.lsb_first VCNL4040._light_integration_time) with true.
  change (RWBits.bit_mask VCNL4040._light_integration_time) with 192.
  change (Z.of_nat (RWBits.lowest_bit VCNL4040._light_integration_time)) with 6.
  set (old_it := Z.shiftr _ 6).
  assert (Hold : 0 <= old_it).
  { subst old_it. apply Z.shiftr_nonneg. apply Z.land_nonneg. right. lia. }
  unfold lift, VCNL4040.it_ms, lshift.
  replace (old_it <? 0) with false by (symmetry; apply Z.ltb_ge; lia).
  replace (new_it <? 0) with true by (symmetry; apply Z.ltb_lt; lia).
  reflexivity.
Qed.

End CacheLife.

(** ** The further properties on the simulated sensor *)

(** The 16-bit proximity output bit (register 0x03, bit 11) of [sim_conf]. *)
Lemma X1_witness :
  0 <= 11 < 8 * Z.of_nat 2
  /\ snd (RWBit.__get__ VCNL4040.proximity_bits sim_conf) = inr true
  /\ log (fst (RWBit.__get__ VCNL4040.proximity_bits sim_conf))
     = [EvRead 0x60 0x03 2].
Proof.
  assert (Hbit : 0 <= 11 < 8 * Z.of_nat 2) by lia.
  split; [exact Hbit |].
  destruct (X1_RWBit_get_reads_bit 0x03 11 2 true sim_conf Hbit)
    as (Hval & Hlog & _).
  split; [exact Hval | exact Hlog].
Defined.

(** Writing the ambient-light interrupt enable bit (register 0x00, bit 1)
    and reading it back from the register as written. *)
Lemma X2_witness :
  let s := Sim.state (Sim.device [(0x00, 0x00C0)] []) 0x60 [] in
  0 <= 1 < 8 * Z.of_nat 2
  /\ snd (bind (RWBit.__set__ VCNL4040.light_interrupt true)
            (fun _ => RWBit.__get__ VCNL4040.light_interrupt) s) = inr true.
Proof.
  intros s.
  assert (Hbit : 0 <= 1 < 8 * Z.of_nat 2) by lia.
  split; [exact Hbit |].
  destruct (X2_RWBit_write_then_read 0x00 1 2 true true s Hbit)
    as (data & Hret & Hwrites & Hback).
  assert (Hdata : data = [194; 0]).
  { change (RWBit.__init__ 0 1 2 true) with VCNL4040.light_interrupt in Hwrites.
    assert (E : writes (log (fst (RWBit.__set__ VCNL4040.light_interrupt true s)))
                = [EvWrite 0x60 0x00 [194; 0]]) by (vm_compute; reflexivity).
    rewrite E in Hwrites. now injection Hwrites as <-. }
  specialize (Hback (fst (RWBit.__set__ VCNL4040.light_interrupt true s))).
  change (RWBit.__init__ 0 1 2 true) with VCNL4040.light_interrupt in Hret, Hback.
  unfold bind.
  rewrite (surjective_pairing (RWBit.__set__ VCNL4040.light_interrupt true s)).
  rewrite Hret. cbv beta iota.
  apply Hback. rewrite Hdata. vm_compute. reflexivity.
Defined.

(** Bit 16 of a two-byte register. *)
Lemma X3_witness :
  8 * Z.of_nat 2 <= 16
  /\ snd (RWBit.__get__ (RWBit.__init__ 0x03 16 2 true) sim_conf) = inl IndexError
  /\ snd (RWBit.__set__ (RWBit.__init__ 0x03 16 2 true) true sim_conf)
     = inl IndexError.
Proof.
  assert (Hbit : 8 * Z.of_nat 2 <= 16) by lia.
  split; [exact Hbit |].
  destruct (X3_RWBit_bit_outside_register 0x03 16 2 true sim_conf Hbit)
    as (Hget & Hset & _).
  rewrite Hget, Hset. split; reflexivity.
Defined.

(** Bit 27 of a two-byte register read high byte first is bit 11. *)
Lemma X4_witness :
  8 * Z.of_nat 2 <= 27 < 16 * Z.of_nat 2
  /\ snd (RWBit.__get__ (RWBit.__init__ 0x03 27 2 false) sim_conf)
     = snd (RWBit.__get__ (RWBit.__init__ 0x03 11 2 false) sim_conf).
Proof.
  assert (Hbit : 8 * Z.of_nat 2 <= 27 < 16 * Z.of_nat 2) by lia.
  split; [exact Hbit |].
  destruct (X4_RWBit_msb_first_index_wraps 0x03 27 2 true sim_conf Hbit)
    as (Hget & _ & _).
  change (27 - 8 * Z.of_nat 2) with 11 in Hget. now rewrite Hget.
Defined.

(** The LED current (register 0x04, bits 8-10) of a sensor whose PS_MS
    word is 0x0500. *)
Lemma X5_witness :
  let s := Sim.state (Sim.device [(0x04, 0x0500)] []) 0x60 [] in
  RWBits.__init__ 3 0x04 8 2 true = inr VCNL4040.led_current
  /\ exists v, snd (RWBits.__get__ VCNL4040.led_current s) = inr v
               /\ 0 <= v < 2 ^ Z.of_nat 3.
Proof.
  intros s.
  assert (Hinit : RWBits.__init__ 3 0x04 8 2 true = inr VCNL4040.led_current)
    by reflexivity.
  split; [exact Hinit |].
  destruct (X5_RWBits_get_reads_field 3 8 2 0x04 true VCNL4040.led_current s Hinit)
    as (v & Hrun & Hrange & _).
  exists v. rewrite Hrun. split; [reflexivity | exact Hrange].
Defined.

(** The LED-current field declared high byte first: writing 5. *)
Lemma X6_witness :
  let s := Sim.state (Sim.device [(0x04, 0x8001)] []) 0x60 [] in
  let msb := VCNL4040.built (RWBits.__init__ 3 0x04 8 2 false) in
  RWBits.__init__ 3 0x04 8 2 false = inr msb
  /\ 0 <= 5 < 2 ^ Z.of_nat 3
  /\ snd (bind (RWBits.__set__ msb 5) (fun _ => RWBits.__get__ msb) s) = inr 5.
Proof.
  intros s msb.
  assert (Hinit : RWBits.__init__ 3 0x04 8 2 false = inr msb) by reflexivity.
  assert (Hvalue : 0 <= 5 < 2 ^ Z.of_nat 3) by (change (2 ^ Z.of_nat 3) with 8; lia).
  split; [exact Hinit |]. split; [exact Hvalue |].
  destruct (RWBits_roundtrip_msb_first 3 8 2 0x04 5 msb s Hinit Hvalue)
    as (data & Hrun & _ & Hback).
  unfold bind. rewrite Hrun. apply Hback.
  assert (E : writes (log (fst (RWBits.__set__ msb 5 s)))
              = [EvWrite 0x60 0x04 [5; 128]]) by (vm_compute; reflexivity).
  rewrite Hrun in E. cbn [fst log] in E.
  unfold writes in E. rewrite List.filter_app in E.
  cbn [List.filter is_write app] in E. change (address s) with 0x60 in E.
  change (List.filter is_write (log s)) with (@nil Event) in E. cbn [app] in E.
  injection E as ->. vm_compute. reflexivity.
Defined.

(** The same write with a value that does not fit the three bits of the
    field: 13 sets bit 11 of the register as well. *)
Lemma X7_witness :
  let s := Sim.state (Sim.device [(0x04, 0x8001)] []) 0x60 [] in
  let msb := VCNL4040.built (RWBits.__init__ 3 0x04 8 2 false) in
  RWBits.__init__ 3 0x04 8 2 false = inr msb
  /\ writes (log (fst (RWBits.__set__ msb 13 s))) = [EvWrite 0x60 0x04 [13; 128]]
  /\ exists data, length data = 2%nat
       /\ Z.testbit (register_bits false data) 11 = true.
Proof.
  intros s msb.
  assert (Hinit : RWBits.__init__ 3 0x04 8 2 false = inr msb) by reflexivity.
  split; [exact Hinit |]. split; [vm_compute; reflexivity |].
  destruct (X7_RWBits_msb_first_write_bits 3 8 2 0x04 13 msb s Hinit)
    as (data & _ & Hlen & _ & Hbits & _).
  exists data. split; [exact Hlen |].
  rewrite Hbits by lia. vm_compute. reflexivity.
Defined.

(** The raw light count register, format ["<H"]. *)
Lemma X8_witness :
  let s := Sim.state (Sim.device [(0x09, 1000)] []) 0x60 [] in
  parse_format "<H" = Some (true, 2%nat)
  /\ snd (ROUnaryStruct.__get__ VCNL4040.light s) = inr 1000
  /\ 0 <= 1000 < 2 ^ (8 * Z.of_nat 2).
Proof.
  intros s.
  assert (Hfmt : parse_format "<H" = Some (true, 2%nat)) by reflexivity.
  split; [exact Hfmt |].
  destruct (X8_UnaryStruct_get_value "<H" 0x09 true 2 s Hfmt) as (Hrun & Hrange).
  unfold ROUnaryStruct.__get__, VCNL4040.light, ROUnaryStruct.__init__.
  cbn [ROUnaryStruct.base]. rewrite Hrun.
  change (register_bits true (snd (readfrom_mem (i2c s) (address s) 9 2)))
    with 1000 in *.
  split; [reflexivity | exact Hrange].
Defined.

(** A sensor that answers 0x186, with a pending PS_away event. *)
Lemma X10_witness :
  let sensor := Sim.device [(0x0C, 0x186)] [0x0100] in
  snd (VCNL4040.__init__ sensor 0x60) = inr tt
  /\ exists results,
       snd (read_flags [Proximity_high; Proximity_low; Proximity_low; Light_low]
              (fst (VCNL4040.__init__ sensor 0x60))) = inr results
       /\ length results = 4%nat.
Proof.
  intros sensor.
  assert (Hinit : snd (VCNL4040.__init__ sensor 0x60) = inr tt)
    by (vm_compute; reflexivity).
  split; [exact Hinit |].
  destruct (X10_flag_properties_never_raise sensor 0x60
              [Proximity_high; Proximity_low; Proximity_low; Light_low] Hinit)
    as ((results & Hrun & Hlen & _) & _).
  exists results. split; [exact Hrun | exact Hlen].
Defined.

(** Consuming offset 5 while the PS_close bit is reported. *)
Lemma X11_witness :
  let s := Sim.state (Sim.device [] [0x0200]) 0x60
             [(13, false); (12, false); (9, false); (8, false)] in
  (5 ∉ VCNL4040.interrupts)
  /\ cached_interrupt_state s !! 5 = None
  /\ snd (VCNL4040._get_and_clear_cached_interrupt_state 5 s) = inl KeyError
  /\ cached_interrupt_state
       (fst (VCNL4040._get_and_clear_cached_interrupt_state 5 s)) !! 9 = Some true.
Proof.
  intros s.
  assert (Hnot : 5 ∉ VCNL4040.interrupts).
  { unfold VCNL4040.interrupts, VCNL4040.PS_IF_AWAY, VCNL4040.PS_IF_CLOSE,
      VCNL4040.ALS_IF_H, VCNL4040.ALS_IF_L.
    rewrite !elem_of_cons, elem_of_nil. lia. }
  assert (Hnone : cached_interrupt_state s !! 5 = None) by (vm_compute; reflexivity).
  split; [exact Hnot |]. split; [exact Hnone |].
  destruct (X11_consume_missing_key 5 s Hnot Hnone) as (cache' & Hrun & _ & Hcache).
  rewrite Hrun. cbn [fst snd cached_interrupt_state].
  split; [reflexivity |].
  rewrite Hcache. vm_compute. reflexivity.
Defined.

(** A PS_close event reported while PS_away is consumed. *)
Lemma X12_witness :
  let s := Sim.state (Sim.device [] [0x0200]) 0x60
             [(13, false); (12, false); (9, false); (8, false)] in
  let consumed :=
    fst (VCNL4040._get_and_clear_cached_interrupt_state VCNL4040.PS_IF_AWAY s) in
  snd (VCNL4040._get_and_clear_cached_interrupt_state VCNL4040.PS_IF_AWAY s)
    = inr false
  /\ snd (VCNL4040._get_and_clear_cached_interrupt_state VCNL4040.PS_IF_CLOSE
            consumed) = inr true.
Proof.
  intros s consumed.
  assert (Hin : forall k : Z, k = 8 \/ k = 9 -> k ∈ VCNL4040.interrupts).
  { intros k Hk. unfold VCNL4040.interrupts, VCNL4040.PS_IF_AWAY,
      VCNL4040.PS_IF_CLOSE, VCNL4040.ALS_IF_H, VCNL4040.ALS_IF_L.
    rewrite !elem_of_cons. lia. }
  destruct (X12_pending_flag_survives VCNL4040.PS_IF_CLOSE VCNL4040.PS_IF_AWAY
              false false s (Hin 9 ltac:(lia)) (Hin 8 ltac:(lia))
              ltac:(discriminate) ltac:(vm_compute; reflexivity)
              ltac:(vm_compute; reflexivity)
              ltac:(right; vm_compute; reflexivity))
    as (_ & _ & _ & Hnext).
  split; [vm_compute; reflexivity | exact Hnext].
Defined.

(** Writing the proximity shutdown bit next to the proximity integration
    time (register 0x03, bits 1-3). *)
Lemma X15_witness :
  let s := Sim.state (Sim.device [(0x03, 0x080A)] []) 0x60 [] in
  0 <= 0 < 8 * Z.of_nat 2
  /\ snd (RWBits.__get__ VCNL4040.proximity_integration_time s) = inr 5
  /\ snd (RWBits.__get__ VCNL4040.proximity_integration_time
            (fst (RWBit.__set__ VCNL4040.proximity_shutdown true s))) = inr 5.
Proof.
  intros s.
  assert (Hbit : 0 <= 0 < 8 * Z.of_nat 2) by lia.
  split; [exact Hbit |].
  assert (Hbefore : snd (RWBits.__get__ VCNL4040.proximity_integration_time s)
                    = inr 5) by (vm_compute; reflexivity).
  split; [exact Hbefore |].
  destruct (X15_RWBit_write_keeps_other_fields 0x03 0 2 true true s Hbit)
    as (data & _ & Hwrites & Hkeep).
  change (RWBit.__init__ 3 0 2 true) with VCNL4040.proximity_shutdown in Hwrites.
  assert (Hdata : data = [11; 8]).
  { assert (E : writes (log (fst (RWBit.__set__ VCNL4040.proximity_shutdown true s)))
                = [EvWrite 0x60 0x03 [11; 8]]) by (vm_compute; reflexivity).
    rewrite E in Hwrites. now injection Hwrites as <-. }
  destruct (Hkeep (fst (RWBit.__set__ VCNL4040.proximity_shutdown true s))
              ltac:(rewrite Hdata; vm_compute; reflexivity)) as (Hfields & _).
  rewrite (Hfields 3%nat 1%nat VCNL4040.proximity_integration_time eq_refl
             ltac:(left; lia)).
  exact Hbefore.
Defined.

(** The setting -1. *)
Lemma X16_witness :
  -1 < 0
  /\ snd (VCNL4040.set_light_integration_time (-1) sim_conf) = inl ValueError
  /\ log (fst (VCNL4040.set_light_integration_time (-1) sim_conf))
     = [EvRead 0x60 0x00 2].
Proof.
  assert (Hneg : -1 < 0) by lia.
  split; [exact Hneg |].
  rewrite (X16_set_light_integration_time_negative (-1) sim_conf Hneg).
  split; reflexivity.
Defined.
